(** * Search-comparison engine of [db_operation.py]

    A shallow embedding of [CustomerPurchasesDBSearchAnalyzer]: the analyzer
    object is explicit state, [print] is a writer, Python exceptions are an
    error result, and the database connection is an oracle.  The in-memory
    snapshot ([self.product_data]) is a list of dictionaries keyed by column
    name. *)

From Stdlib Require Import ZArith QArith Ascii.
From Stdlib Require OrderedTypeEx.
From stdpp Require Import gmap strings list sorting pretty.
From Equations Require Import Equations.

Local Open Scope Z_scope.

(** ** Python primitives *)

(** [str(x)]: every value stored in a record or typed at the prompt has a
    string form.  A Python string is held as its UTF-8 bytes, on which
    [String.eqb] is [==] and the byte-wise lexicographic [String.ltb] is [<]
    (code-point order and UTF-8 byte order coincide). *)
Class PyStr (V : Type) := py_str : V → string.

Inductive exn :=
| KeyError (key : string)
| IndexError
| AttributeError (attr : string)
| OperationalError (msg : string).

Inductive result (A : Type) :=
| Ok (a : A)
| Raise (e : exn).
Arguments Ok {A} a.
Arguments Raise {A} e.

#[global] Instance exn_eq_dec : EqDecision exn.
Proof. solve_decision. Defined.

#[global] Instance result_eq_dec `{EqDecision A} : EqDecision (result A).
Proof. solve_decision. Defined.

#[global] Instance Q_eq_dec : EqDecision Q.
Proof. solve_decision. Defined.

(** ** The monad of methods: state, standard output, exceptions *)

Module Py.
Section Monad.
Context {S L : Type}.

(** What a call leaves behind: the lines printed, the object after the
    call (kept when an exception is raised), and the value or exception. *)
Record run (A : Type) := Run { out : list L; self_after : S; res : result A }.

Definition M (A : Type) : Type := S → run A.

Definition ret {A} (a : A) : M A := fun s => Run A [] s (Ok a).

Definition raise {A} (e : exn) : M A := fun s => Run A [] s (Raise e).

Definition bind {A B} (m : M A) (f : A → M B) : M B := fun s =>
  match m s with
  | Run _ o s' (Ok a) =>
      match f a s' with
      | Run _ o' s'' r => Run B (o ++ o') s'' r
      end
  | Run _ o s' (Raise e) => Run B o s' (Raise e)
  end.

Definition print (l : L) : M unit := fun s => Run unit [l] s (Ok tt).

Definition get : M S := fun s => Run S [] s (Ok s).

Definition put (s' : S) : M unit := fun _ => Run unit [] s' (Ok tt).

(** [try: m except ...: h e]; [h e = None] when no clause matches [e]. *)
Definition try_except {A} (m : M A) (h : exn → option (M A)) : M A := fun s =>
  match m s with
  | Run _ o s' (Ok a) => Run A o s' (Ok a)
  | Run _ o s' (Raise e) =>
      match h e with
      | Some k =>
          match k s' with
          | Run _ o' s'' r => Run A (o ++ o') s'' r
          end
      | None => Run A o s' (Raise e)
      end
  end.
End Monad.

Arguments run : clear implicits.
Arguments Run {S L A} out self_after res.
Arguments out {S L A} r.
Arguments self_after {S L A} r.
Arguments res {S L A} r.
Arguments M : clear implicits.
End Py.

Import Py.

#[global] Instance M_ret {S L} : MRet (M S L) := @ret S L.
#[global] Instance M_bind {S L} : MBind (M S L) := fun A B f m => bind m f.

(** [l[i]] on a list, negative indices counting from the end. *)
Definition getitem_list {S L A} (l : list A) (i : Z) : M S L A :=
  let n := Z.of_nat (length l) in
  let j := if i <? 0 then i + n else i in
  if (0 <=? j) && (j <? n) then
    match l !! Z.to_nat j with
    | Some x => ret x
    | None => raise IndexError
    end
  else raise IndexError.

(** [d[k]] on a dictionary. *)
Definition getitem_dict {S L V} (d : gmap string V) (k : string) : M S L V :=
  match d !! k with
  | Some v => ret v
  | None => raise (KeyError k)
  end.

(** ** [sorted(data, key=...)]

  The keys are computed first, in order (the first failing key raises);
  the decorated list is then sorted with [<] on the keys only.  Python's
  sort is stable, and a stable sort for a total preorder has one possible
  output, so insertion from the right, placing an element before the first
  key that is not smaller, computes the same list. *)
Section Sorted.
Context {S L A : Type}.

Fixpoint decorate (key : A → M S L string) (data : list A)
  : M S L (list (string * A)) :=
  match data with
  | [] => ret []
  | x :: rest =>
      k ← key x;
      ds ← decorate key rest;
      ret ((k, x) :: ds)
  end.

Fixpoint insert_by_key (kx : string * A) (l : list (string * A))
  : list (string * A) :=
  match l with
  | [] => [kx]
  | ky :: l' =>
      if String.ltb (fst ky) (fst kx) then ky :: insert_by_key kx l'
      else kx :: ky :: l'
  end.

Definition stable_sort (ds : list (string * A)) : list (string * A) :=
  foldr insert_by_key [] ds.

Definition sorted (data : list A) (key : A → M S L string) : M S L (list A) :=
  ds ← decorate key data;
  ret (snd <$> stable_sort ds).
End Sorted.

(** ** The analyzer object *)

Section Analyzer.
Context {V : Type} `{PyStr V}.

(** A record of the snapshot: [dict] from column name to value. *)
Abbreviation record := (gmap string V).

(** What one round trip [cursor(); execute(query, (value,)); fetchone();
    close()] between two readings of [time.perf_counter()] can do: raise, or
    hand back a row (or no row) after some elapsed time. *)
Inductive query_reply :=
| QueryRaises (e : exn)
| QueryRow (row : option (list V)) (query_time : Q).

(** [SELECT ... FROM customer_purchases ORDER BY customer_id]: raise, or
    hand back [cursor.description] and [fetchall()]. *)
Inductive fetch_reply :=
| FetchRaises (e : exn)
| FetchRows (columns : list string) (rows : list (list V)).

(** A psycopg2 connection, as far as the analyzer uses it. *)
Record conn := Conn {
  select_where : string → V → query_reply;
  select_all : fetch_reply }.

Record analyzer := Analyzer {
  connection_params : list (string * option string);
  connection : option conn;
  product_data : list record }.

(** The lines the analyzer prints, by the method that prints them, each
    with the values its f-string shows.  [Banner] is the five-line heading of
    [main], [DemoMode] its six-line note on the missing [.env] file, and
    [Rule n] a line of [n] equals signs. *)
Inductive line :=
| ConfigMissing (keys : list string)
| CheckEnvFile
| ConfigLoaded
| Connected
| ConnectError (e : exn)
| TryingCsv
| Fetched (n : nat)
| FetchError (e : exn)
| NoConnection
| DbFound (indexed : bool) (query_time : Q)
| DbNotFound (indexed : bool) (query_time : Q)
| DbQueryError (e : exn)
| ColumnNotFound (search_column : string)
| BinarySearching
| BinaryFound (comparisons : Z)
| BinaryNotFound (comparisons : Z)
| SequentialSearching
| SequentialFound (comparisons : Z)
| SequentialNotFound (comparisons : Z)
| SearchingFor (column : string) (search_value : V)
| Rule (width : nat)
| ColumnIndexed (column : string) (is_indexed : bool)
| PerformanceComparison
| DbTime (db_time : Q)
| BinaryComparisons (comparisons : Z)
| SequentialComparisons (comparisons : Z)
| Speedup (speedup : Q)
| FoundRecord
| Field (key : string) (value : V)
| NoRecordFound (column : string) (search_value : V)
| Banner
| DemoMode
| NoDataCannotProceed.

#[global] Instance line_eq_dec `{EqDecision V} : EqDecision line.
Proof. solve_decision. Defined.

Abbreviation Method := (M analyzer line).

(** *** [binary_search] *)

(** [lambda x: str(x[search_column])] *)
Definition sort_key (search_column : string) (x : record) : Method string :=
  v ← getitem_dict x search_column;
  mret (py_str v).

(** The [while left <= right] loop with the two statements after it; the
    interval shrinks at every turn, which is the measure.  [left_] and
    [right_] are the source's [left] and [right], whose names the two
    answers of [decide] already bear. *)
Equations? binary_loop (sorted_data : list record) (target_value : V)
  (search_column : string) (left_ right_ comparisons : Z)
  : Method (option record * Z) by wf (Z.to_nat (right_ - left_ + 1)) lt :=
binary_loop sorted_data target_value search_column left_ right_ comparisons
  with decide (left_ ≤ right_) := {
  | right _ =>
      print (BinaryNotFound comparisons);;
      mret (None, comparisons)
  | left _ =>
      let comparisons := comparisons + 1 in
      let mid := (left_ + right_) `div` 2 in
      rec ← getitem_list sorted_data mid;
      v ← getitem_dict rec search_column;
      let mid_value := py_str v in
      if String.eqb mid_value (py_str target_value) then
        print (BinaryFound comparisons);;
        mret (Some rec, comparisons)
      else if String.ltb mid_value (py_str target_value) then
        binary_loop sorted_data target_value search_column (mid + 1) right_ comparisons
      else
        binary_loop sorted_data target_value search_column left_ (mid - 1) comparisons }.
Proof.
  all: subst mid.
  - assert (left_ ≤ (left_ + right_) `div` 2) by (apply Z.div_le_lower_bound; lia).
    lia.
  - assert ((left_ + right_) `div` 2 ≤ right_) by (apply Z.div_le_upper_bound; lia).
    lia.
Qed.

(** The [try] block holds the [sorted] call alone; its [except KeyError]
    clause returns from the method, which [inl] stands for. *)
Definition binary_search (target_value : V) (search_column : string)
  : Method (option record * Z) :=
  self ← get;
  attempt ← try_except
    (sorted_data ← sorted (product_data self) (sort_key search_column);
     mret (inr sorted_data))
    (fun e =>
       match e with
       | KeyError _ =>
           Some (print (ColumnNotFound search_column);;
                 mret (inl (None, 0)))
       | _ => None
       end);
  match attempt with
  | inl returned => mret returned
  | inr sorted_data =>
      let left_ := 0 in
      let right_ := Z.of_nat (length sorted_data) - 1 in
      let comparisons := 0 in
      print BinarySearching;;
      binary_loop sorted_data target_value search_column left_ right_ comparisons
  end.

(** *** [sequential_search] *)

(** The [for record in ...] loop with the two statements after it. *)
Fixpoint sequential_loop (records : list record) (target_value : V)
  (search_column : string) (comparisons : Z) : Method (option record * Z) :=
  match records with
  | [] =>
      print (SequentialNotFound comparisons);;
      mret (None, comparisons)
  | record :: rest =>
      let comparisons := comparisons + 1 in
      v ← getitem_dict record search_column;
      if String.eqb (py_str v) (py_str target_value) then
        print (SequentialFound comparisons);;
        mret (Some record, comparisons)
      else sequential_loop rest target_value search_column comparisons
  end.

Definition sequential_search (target_value : V) (search_column : string)
  : Method (option record * Z) :=
  let comparisons := 0 in
  print SequentialSearching;;
  self ← get;
  sequential_loop (product_data self) target_value search_column comparisons.

(** *** The query executor *)

Definition table_columns : list string :=
  ["customer_id"; "customer_name"; "purchase_date";
   "product_id"; "product_category"; "amount"]%string.

(** [if result:] on what [fetchone()] returned: [None] and the empty tuple
    are false. *)
Definition row_truthy (result : option (list V)) : option (list V) :=
  match result with
  | Some (x :: row) => Some (x :: row)
  | _ => None
  end.

(** Both lookups issue the same query; [indexed] only picks the wording of
    the printed line.  The result dictionary keeps insertion order, so it
    is the zipped list itself (the six column names are distinct). *)
Definition database_search (indexed : bool) (search_value : V) (column : string)
  : Method (option (list (string * V)) * Q) :=
  self ← get;
  match connection self with
  | None =>
      print NoConnection;;
      mret (None, 0%Q)
  | Some c =>
      match select_where c column search_value with
      | QueryRow result query_time =>
          match row_truthy result with
          | Some result =>
              let columns := table_columns in
              let result_dict := zip columns result in
              print (DbFound indexed query_time);;
              mret (Some result_dict, query_time)
          | None =>
              print (DbNotFound indexed query_time);;
              mret (None, query_time)
          end
      | QueryRaises e =>
          print (DbQueryError e);;
          mret (None, 0%Q)
      end
  end.

Definition database_search_indexed := database_search true.
Definition database_search_unindexed := database_search false.

(** *** The comparison reporter *)

Definition indexed_columns : list string :=
  ["customer_id"; "product_category"; "purchase_date"]%string.

Fixpoint print_fields (items : list (string * V)) : Method unit :=
  match items with
  | [] => mret tt
  | (key, value) :: rest => print (Field key value);; print_fields rest
  end.

Definition perform_search_comparison (search_value : V) (column : string)
  : Method unit :=
  print (SearchingFor column search_value);;
  print (Rule 60);;
  let is_indexed := bool_decide (column ∈ indexed_columns) in
  print (ColumnIndexed column is_indexed);;
  db ← (if is_indexed then database_search_indexed search_value column
        else database_search_unindexed search_value column);
  let '(db_result, db_time) := db in
  b ← binary_search search_value column;
  let '(binary_result, binary_comparisons) := b in
  s ← sequential_search search_value column;
  let '(sequential_result, sequential_comparisons) := s in
  print PerformanceComparison;;
  print (DbTime db_time);;
  print (BinaryComparisons binary_comparisons);;
  print (SequentialComparisons sequential_comparisons);;
  (if (0 <? sequential_comparisons) && (0 <? binary_comparisons) then
     let speedup :=
       Qdiv (inject_Z sequential_comparisons) (inject_Z binary_comparisons) in
     print (Speedup speedup)
   else mret tt);;
  match db_result with
  | Some (item :: items) =>
      print FoundRecord;;
      print_fields (item :: items)
  | _ => print (NoRecordFound column search_value)
  end.

(** *** Start-up *)

(** What the process finds around it: [os.getenv], whether [.env] exists,
    and what [psycopg2.connect] does with the parameters. *)
Record environment := Environment {
  getenv : string → option string;
  env_file_exists : bool;
  psycopg2_connect : list (string * option string) → exn + conn }.

Definition getenv_default (env : environment) (name default : string)
  : option string :=
  match getenv env name with
  | Some v => Some v
  | None => Some default
  end.

Definition upper_ascii (c : ascii) : ascii :=
  let n := nat_of_ascii c in
  if ((97 <=? n) && (n <=? 122))%nat then ascii_of_nat (n - 32) else c.

Fixpoint upper (s : string) : string :=
  match s with
  | EmptyString => EmptyString
  | String c s' => String (upper_ascii c) (upper s')
  end.

(** [not value] for an environment value: unset or empty. *)
Definition value_missing (value : option string) : bool :=
  match value with
  | None | Some EmptyString => true
  | Some _ => false
  end.

Definition load_db_config (env : environment)
  : Method (list (string * option string)) :=
  let db_connection :=
    [("host", getenv_default env "DB_HOST" "localhost");
     ("database", getenv_default env "DB_NAME" "postgres");
     ("user", getenv_default env "DB_USER" "postgres");
     ("password", getenv env "DB_PASSWORD");
     ("port", getenv_default env "DB_PORT" "5432")]%string in
  let missing_config :=
    (fun kv => upper (fst kv)) <$> filter (fun kv => value_missing (snd kv) = true) db_connection in
  (match missing_config with
   | _ :: _ => print (ConfigMissing missing_config);; print CheckEnvFile
   | [] => print ConfigLoaded
   end);;
  mret db_connection.

(** [self.load_from_csv()] on line 51 looks up an attribute the class does
    not have: lines 53-62, where the method would be, are a comment. *)
Definition connect_to_database (env : environment) : Method unit :=
  self ← get;
  try_except
    (match psycopg2_connect env (connection_params self) with
     | inr c =>
         put (Analyzer (connection_params self) (Some c) (product_data self));;
         print Connected
     | inl e => raise e
     end)
    (fun e =>
       Some (print (ConnectError e);;
             print TryingCsv;;
             raise (AttributeError "load_from_csv"))).

(** [__init__] *)
Definition init (env : environment) : Method unit :=
  params ← load_db_config env;
  put (Analyzer params None []);;
  connect_to_database env.

(** [dict(pairs)]: a later pair with the same key replaces an earlier one. *)
Definition dict (pairs : list (string * V)) : record :=
  foldl (fun d kv => <[fst kv := snd kv]> d) ∅ pairs.

Definition fetch_all_data : Method (list record) :=
  self ← get;
  match connection self with
  | Some c =>
      match select_all c with
      | FetchRows columns rows =>
          let data := (fun row => dict (zip columns row)) <$> rows in
          put (Analyzer (connection_params self) (connection self) data);;
          print (Fetched (length data));;
          mret data
      | FetchRaises e =>
          print (FetchError e);;
          mret []
      end
  | None => mret (product_data self)
  end.

(** [main] up to the interactive session; [session] stands for lines
    451-461 (index listing, menu loop, clean-up). *)
Definition main (env : environment) (session : Method unit) : Method unit :=
  print Banner;;
  (if env_file_exists env then mret tt else print DemoMode);;
  init env;;
  data ← fetch_all_data;
  match data with
  | [] => print NoDataCannotProceed
  | _ :: _ => session
  end.
End Analyzer.

Arguments analyzer V : clear implicits.
Arguments conn V : clear implicits.
Arguments line V : clear implicits.
Arguments environment V : clear implicits.

(** ** Methods around the searches *)

Section Listing.
Context {V : Type} `{PyStr V}.

(** The generator [str(record[column]) for record in self.product_data],
    consumed to the end. *)
Fixpoint column_strings (column : string) (records : list (gmap string V))
  : M (analyzer V) (line V) (list string) :=
  match records with
  | [] => mret []
  | record :: rest =>
      v ← getitem_dict record column;
      strs ← column_strings column rest;
      mret (py_str v :: strs)
  end.

(** [get_unique_values].  [list(set(...))] lists the set in an order of its
    own, here that of [elements]; [sorted] then arranges distinct strings,
    and its output does not depend on that order. *)
Definition get_unique_values (column : string)
  : M (analyzer V) (line V) (list string) :=
  self ← get;
  match product_data self with
  | [] => mret []
  | _ :: _ =>
      strs ← column_strings column (product_data self);
      let unique_values := elements (list_to_set strs : gset string) in
      sorted unique_values mret
  end.
End Listing.

(** A string typed at the prompt is a value like any other, and [str] of it
    is the string itself. *)
Class PyText (V : Type) `{PyStr V} := {
  py_text : string → V;
  py_str_text : ∀ typed, py_str (py_text typed) = typed }.

Section Shell.
Context {V : Type} `{PyText V}.

(** The lines of the methods that call the reporter; [Printed] carries a
    line of the methods above.  [RunningTests] is the heading of the test
    run, [SearchHeading] the heading of a search with its display name in
    capitals, [AvailableValues] the first ten values joined by commas,
    [AndMore n] the count of the others, and [AskValue] the prompt [input]
    shows. *)
Inductive shell_line :=
| Printed (l : line V)
| RunningTests
| NoDataForTesting
| TestHeading (i : nat) (column : string) (indexed : bool)
| SearchHeading (display_name : string)
| AvailableValues (display_name : string) (values : list string)
| AndMore (n : nat)
| AskValue (display_name : string).

#[global] Instance shell_line_eq_dec `{EqDecision V} : EqDecision shell_line.
Proof. solve_decision. Defined.

(** A method of the analyzer run where these lines are printed. *)
Definition lift {A} (m : M (analyzer V) (line V) A) : M (analyzer V) shell_line A :=
  fun s =>
    match m s with
    | Run o s' r => Run (Printed <$> o) s' r
    end.

(** The [for i, test in enumerate(test_cases, 1)] loop. *)
Fixpoint run_tests (i : nat) (test_cases : list (string * V * bool))
  : M (analyzer V) shell_line unit :=
  match test_cases with
  | [] => mret tt
  | (column, value, indexed) :: rest =>
      print (TestHeading i column indexed);;
      lift (perform_search_comparison value column);;
      run_tests (S i) rest
  end.

(** [run_performance_tests].  The three values are read off the first
    record while the list of test cases is built, before any test runs. *)
Definition run_performance_tests : M (analyzer V) shell_line unit :=
  print RunningTests;;
  lift (print (Rule 50));;
  self ← get;
  match product_data self with
  | [] => print NoDataForTesting
  | first :: _ =>
      customer_id ← lift (getitem_dict first "customer_id");
      product_id ← lift (getitem_dict first "product_id");
      product_category ← lift (getitem_dict first "product_category");
      let test_cases :=
        [("customer_id"%string, customer_id, true);
         ("product_id"%string, product_id, false);
         ("product_category"%string, product_category, true)] in
      run_tests 1 test_cases
  end.

(** [search_by_column]; [typed] is what [input(...).strip()] returned. *)
Definition search_by_column (column display_name typed : string)
  : M (analyzer V) shell_line unit :=
  print (SearchHeading display_name);;
  available_values ← lift (get_unique_values column);
  print (AvailableValues display_name (take 10 available_values));;
  (if bool_decide (10 < length available_values)%nat
   then print (AndMore (length available_values - 10))
   else mret tt);;
  print (AskValue display_name);;
  let search_value := typed in
  match search_value with
  | EmptyString => mret tt
  | String _ _ => lift (perform_search_comparison (py_text search_value) column)
  end.
End Shell.

Arguments shell_line V : clear implicits.

(** ** Concrete values: what a row of the table holds *)

Inductive cell :=
| Int (n : Z)
| Text (s : string)
| PyNone.

#[global] Instance cell_eq_dec : EqDecision cell.
Proof. solve_decision. Defined.

#[global] Instance cell_str : PyStr cell := fun c =>
  match c with
  | Int n => pretty n
  | Text s => s
  | PyNone => "None"%string
  end.

#[global] Instance cell_text : PyText cell :=
  {| py_text := Text; py_str_text := fun _ => eq_refl |}.

(** ** Sample snapshots *)

(** A record as [fetch_all_data] builds it from a row of the table. *)
Definition purchase (customer_id : Z) (customer_name purchase_date : string)
  (product_id : Z) (product_category amount : string) : gmap string cell :=
  dict (zip table_columns
          [Int customer_id; Text customer_name; Text purchase_date;
           Int product_id; Text product_category; Text amount]).

Definition ann : gmap string cell :=
  purchase 1 "Ann" "2024-01-05" 501 "Books" "12.50".
Definition bob : gmap string cell :=
  purchase 2 "Bob" "2024-01-06" 502 "Toys" "8.00".
Definition cyd : gmap string cell :=
  purchase 3 "Cyd" "2024-01-07" 503 "Books" "101.99".
Definition dee : gmap string cell :=
  purchase 4 "Dee" "2024-01-08" 504 "Games" "9.75".

(** Customers 1, 2, 3 in the order the store returns them. *)
Definition three_customers : analyzer cell := Analyzer [] None [ann; bob; cyd].

(** Four customers, out of order. *)
Definition four_customers : analyzer cell := Analyzer [] None [ann; dee; bob; cyd].

(** A snapshot whose second record has no [customer_id]. *)
Definition ragged : analyzer cell :=
  Analyzer [] None [ann; dict [("customer_name"%string, Text "Bob")]].

Definition no_customers : analyzer cell := Analyzer [] None [].

(** A connection whose store has the six columns of [table_columns] and
    rejects a query on any other column. *)
Definition strict_store : conn cell :=
  Conn (fun column search_value =>
          if bool_decide (column ∈ table_columns) then QueryRow None (1 # 1000)
          else QueryRaises (OperationalError "column does not exist"))
       (FetchRows table_columns []).

Definition connected_customers : analyzer cell :=
  Analyzer [] (Some strict_store) [ann; bob; cyd].

(** A store that holds two rows and finds nothing on a lookup. *)
Definition ann_row : list cell :=
  [Int 1; Text "Ann"; Text "2024-01-05"; Int 501; Text "Books"; Text "12.50"].
Definition bob_row : list cell :=
  [Int 2; Text "Bob"; Text "2024-01-06"; Int 502; Text "Toys"; Text "8.00"].

Definition stocked_store : conn cell :=
  Conn (fun column search_value => QueryRow None (1 # 1000))
       (FetchRows table_columns [ann_row; bob_row]).

Definition just_connected : analyzer cell := Analyzer [] (Some stocked_store) [].

(** No database to connect to. *)
Definition unreachable : environment cell :=
  Environment (fun _ => None) false
    (fun _ => inl (OperationalError "connection refused")).

(** ** Specification vocabulary *)

(** [a <= b] on strings, as the sort sees it: [b < a] is false. *)
Definition str_le (a b : string) : Prop := String.ltb b a = false.

Section Vocabulary.
Context {V : Type} `{PyStr V}.

(** The string form of the record's value in the column (the sort key);
    the empty string stands in where the record has no such column. *)
Definition str_at (search_column : string) (x : gmap string V) : string :=
  match x !! search_column with
  | Some v => py_str v
  | None => EmptyString
  end.

(** A list of records is in ascending order of that string form. *)
Definition sorted_by (search_column : string) (l : list (gmap string V)) : Prop :=
  StronglySorted (fun a b => str_le (str_at search_column a) (str_at search_column b)) l.

(** The last line [binary_search] prints for a given result. *)
Definition binary_verdict (r : option (gmap string V) * Z) : line V :=
  match fst r with
  | Some _ => BinaryFound (snd r)
  | None => BinaryNotFound (snd r)
  end.

(** Every record of the snapshot has the column. *)
Definition has_column (search_column : string) (data : list (gmap string V)) : Prop :=
  Forall (fun x => is_Some (x !! search_column)) data.

(** The record has the column and its value's string form is the target's. *)
Definition matches (target_value : V) (search_column : string) (x : gmap string V) : Prop :=
  py_str <$> x !! search_column = Some (py_str target_value).

#[global] Instance matches_dec target_value search_column x :
  Decision (matches target_value search_column x).
Proof. unfold matches. apply _. Defined.

#[global] Instance has_column_dec search_column data :
  Decision (has_column search_column data).
Proof. unfold has_column. apply _. Defined.

(** A search returned a record. *)
Definition found (r : result (option (gmap string V) * Z)) : Prop :=
  ∃ x comparisons, r = Ok (Some x, comparisons).

(** A search returned the not-found pair. *)
Definition not_found (r : result (option (gmap string V) * Z)) : Prop :=
  ∃ comparisons, r = Ok (None, comparisons).

(** Both searches found a record, or both returned not-found. *)
Definition agree (b s : result (option (gmap string V) * Z)) : Prop :=
  (found b ∧ found s) ∨ (not_found b ∧ not_found s).

(** Every speedup line a run of the reporter prints shows at least 1. *)
Definition speedup_at_least_one (printed : list (line V)) : Prop :=
  ∀ q, Speedup q ∈ printed → Qle 1 q.
End Vocabulary.

(** ** Proof steps that recur *)

(** Decide a closed, decidable statement about a sample by evaluation. *)
Ltac by_evaluation := apply (bool_decide_unpack _); vm_compute; exact I.

(** A given line is not among finitely many lines of other kinds. *)
Ltac absent_line :=
  let Hin := fresh "Hin" in
  intros Hin;
  repeat (apply elem_of_cons in Hin as [Hin|Hin]; [discriminate Hin|]);
  by apply elem_of_nil in Hin.

(** ** The order on strings *)

Section StringOrder.
Implicit Types a b c : string.

Lemma ltb_Lt a b : String.ltb a b = true ↔ String.compare a b = Lt.
Proof. unfold String.ltb. destruct (String.compare a b); split; congruence. Qed.

Lemma eqb_Eq a b : String.eqb a b = true ↔ String.compare a b = Eq.
Proof.
  rewrite String.eqb_eq. split.
  - intros ->. by apply OrderedTypeEx.String_as_OT.cmp_eq.
  - apply String.compare_eq_iff.
Qed.

Lemma ltb_asym a b : String.ltb a b = true → String.ltb b a = false.
Proof.
  rewrite ltb_Lt. intros Hab. unfold String.ltb.
  rewrite String.compare_antisym, Hab. reflexivity.
Qed.

Lemma ltb_trans a b c :
  String.ltb a b = true → String.ltb b c = true → String.ltb a c = true.
Proof.
  rewrite !ltb_Lt. intros Hab Hbc.
  apply OrderedTypeEx.String_as_OT.cmp_lt in Hab, Hbc.
  apply OrderedTypeEx.String_as_OT.cmp_lt.
  eapply OrderedTypeEx.String_as_OT.lt_trans; eassumption.
Qed.

Lemma ltb_irrefl a : String.ltb a a = false.
Proof.
  destruct (String.ltb a a) eqn:E; [|done].
  by rewrite (ltb_asym _ _ E) in E.
Qed.

(** The order is total: what is neither equal nor smaller is greater. *)
Lemma ltb_total a b :
  String.eqb a b = false → String.ltb a b = false → String.ltb b a = true.
Proof.
  intros Hne Hnlt. apply ltb_Lt. rewrite String.compare_antisym.
  destruct (String.compare a b) eqn:E; [| |done].
  - apply eqb_Eq in E. congruence.
  - apply ltb_Lt in E. congruence.
Qed.

Lemma str_le_refl a : str_le a a.
Proof. apply ltb_irrefl. Qed.

Lemma str_le_lt_trans a b c :
  str_le a b → String.ltb b c = true → String.ltb a c = true.
Proof.
  unfold str_le. intros Hab Hbc.
  destruct (String.eqb a b) eqn:E.
  - apply String.eqb_eq in E. by subst.
  - rewrite String.eqb_sym in E.
    eapply ltb_trans; [|exact Hbc]. by apply ltb_total.
Qed.

#[local] Instance str_le_transitive : Transitive str_le.
Proof.
  intros a b c Hab Hbc. unfold str_le.
  destruct (String.ltb c a) eqn:E; [|done].
  pose proof (str_le_lt_trans _ _ _ Hbc E) as Hba.
  unfold str_le in Hab. congruence.
Qed.
End StringOrder.

(** ** Running methods *)

Section RunLemmas.
Context {S L : Type}.

Lemma run_bind_ok {A B} (m : M S L A) (f : A → M S L B) s o s' a :
  m s = Run o s' (Ok a) →
  (m ≫= f) s = Run (o ++ out (f a s')) (self_after (f a s')) (res (f a s')).
Proof. intros E. unfold mbind, M_bind, bind. rewrite E. by destruct (f a s'). Qed.

Lemma run_bind_raise {A B} (m : M S L A) (f : A → M S L B) s o s' e :
  m s = Run o s' (Raise e) → (m ≫= f) s = Run o s' (Raise e).
Proof. intros E. unfold mbind, M_bind, bind. by rewrite E. Qed.

Lemma run_bind_pure {A B} (m : M S L A) (f : A → M S L B) s a :
  m s = Run [] s (Ok a) → (m ≫= f) s = f a s.
Proof. intros E. rewrite (run_bind_ok _ _ _ _ _ _ E). by destruct (f a s). Qed.
Lemma run_try_ok {A} (m : M S L A) h s o s' a :
  m s = Run o s' (Ok a) → try_except m h s = Run o s' (Ok a).
Proof. intros E. unfold try_except. by rewrite E. Qed.

Lemma run_try_caught {A} (m : M S L A) h s o s' e k :
  m s = Run o s' (Raise e) → h e = Some k →
  try_except m h s = Run (o ++ out (k s')) (self_after (k s')) (res (k s')).
Proof. intros E Hh. unfold try_except. rewrite E, Hh. by destruct (k s'). Qed.
End RunLemmas.

(** ** [sorted] sorts *)

Section SortLemmas.
Context {V : Type} `{PyStr V}.
Implicit Types (x : gmap string V) (data : list (gmap string V)).
Implicit Types (s : analyzer V) (ds : list (string * gmap string V)).

Lemma sort_key_has search_column x s :
  is_Some (x !! search_column) →
  sort_key search_column x s = Run [] s (Ok (str_at search_column x)).
Proof.
  intros [v Hv]. unfold sort_key, getitem_dict, str_at. rewrite Hv. reflexivity.
Qed.

Lemma sort_key_missing search_column x s :
  x !! search_column = None →
  sort_key search_column x s = Run [] s (Raise (KeyError search_column)).
Proof. intros Hx. unfold sort_key, getitem_dict. rewrite Hx. reflexivity. Qed.

Lemma decorate_has search_column data s :
  has_column search_column data →
  decorate (sort_key search_column) data s
  = Run [] s (Ok ((fun x => (str_at search_column x, x)) <$> data)).
Proof.
  induction 1 as [|x data Hx _ IH]; [reflexivity|].
  cbn [decorate]. rewrite (run_bind_pure _ _ _ _ (sort_key_has _ _ _ Hx)).
  rewrite (run_bind_pure _ _ _ _ IH). reflexivity.
Qed.

Lemma decorate_missing search_column data s :
  ¬ has_column search_column data →
  decorate (sort_key search_column) data s = Run [] s (Raise (KeyError search_column)).
Proof.
  unfold has_column. induction data as [|x data IH]; intros Hno.
  - destruct Hno. constructor.
  - cbn [decorate]. destruct (x !! search_column) as [v|] eqn:Hx.
    + rewrite (run_bind_pure _ _ _ _ (sort_key_has _ _ _ (mk_is_Some _ _ Hx))).
      erewrite run_bind_raise; [reflexivity|]. apply IH.
      intros Hall. apply Hno. constructor; eauto.
    + erewrite run_bind_raise; [reflexivity|]. by apply sort_key_missing.
Qed.

Lemma insert_by_key_perm {A} (kx : string * A) l : insert_by_key kx l ≡ₚ kx :: l.
Proof.
  induction l as [|ky l IH]; [done|]. cbn [insert_by_key].
  destruct (String.ltb ky.1 kx.1); [|done].
  rewrite IH. apply Permutation_swap.
Qed.

Lemma stable_sort_perm {A} (l : list (string * A)) : stable_sort l ≡ₚ l.
Proof.
  induction l as [|kx l IH]; [done|]. unfold stable_sort in *. cbn [foldr].
  by rewrite insert_by_key_perm, IH.
Qed.

Lemma insert_by_key_sorted {A} (kx : string * A) l :
  StronglySorted (fun a b => str_le a.1 b.1) l →
  StronglySorted (fun a b => str_le a.1 b.1) (insert_by_key kx l).
Proof.
  induction 1 as [|ky l Hl IH Hky]; cbn [insert_by_key].
  - repeat constructor.
  - destruct (String.ltb ky.1 kx.1) eqn:E.
    + constructor; [done|]. rewrite insert_by_key_perm.
      constructor; [|done]. by apply ltb_asym.
    + constructor; [by constructor|]. constructor; [done|].
      eapply Forall_impl; [exact Hky|]. intros kz Hz.
      exact (str_le_transitive _ _ _ E Hz).
Qed.

Lemma stable_sort_sorted {A} (l : list (string * A)) :
  StronglySorted (fun a b => str_le a.1 b.1) (stable_sort l).
Proof.
  induction l as [|kx l IH]; [constructor|]. by apply insert_by_key_sorted.
Qed.

Lemma undecorate_sorted search_column ds :
  Forall (fun d => d.1 = str_at search_column d.2) ds →
  StronglySorted (fun a b => str_le a.1 b.1) ds →
  sorted_by search_column (ds.*2).
Proof.
  intros Hkeys Hsorted. induction Hsorted as [|d ds _ IH Hd]; [constructor|].
  apply Forall_cons in Hkeys as [Hk Hkeys]. cbn. constructor; [by apply IH|].
  apply Forall_fmap. rewrite Forall_forall in Hd, Hkeys. apply Forall_forall.
  intros d' Hd'. cbn. rewrite <-Hk, <-(Hkeys _ Hd'). by apply Hd.
Qed.

(** With the column in every record, [sorted] returns a sorted rearrangement
    of its argument, prints nothing and leaves the object alone. *)
Lemma sorted_has search_column data s :
  has_column search_column data →
  ∃ sorted_data,
    sorted data (sort_key search_column) s = Run [] s (Ok sorted_data)
    ∧ sorted_data ≡ₚ data
    ∧ sorted_by search_column sorted_data.
Proof.
  intros Hcol. eexists. split; [|split].
  - unfold sorted. rewrite (run_bind_pure _ _ _ _ (decorate_has _ _ _ Hcol)).
    reflexivity.
  - rewrite stable_sort_perm, <-list_fmap_compose.
    induction data as [|x data IH]; [done|]. cbn. f_equiv. apply IH.
    by eapply Forall_cons_1.
  - apply undecorate_sorted; [|apply stable_sort_sorted].
    rewrite stable_sort_perm. apply Forall_fmap, Forall_forall. done.
Qed.

Lemma sorted_missing search_column data s :
  ¬ has_column search_column data →
  sorted data (sort_key search_column) s = Run [] s (Raise (KeyError search_column)).
Proof.
  intros Hno. unfold sorted. erewrite run_bind_raise; [reflexivity|].
  by apply decorate_missing.
Qed.

(** The working copy exists exactly when every record has the column. *)
Lemma sorted_returns_has search_column data s sorted_data :
  res (sorted data (sort_key search_column) s) = Ok sorted_data →
  has_column search_column data.
Proof.
  intros Hrun. destruct (decide (has_column search_column data)) as [|Hno]; [done|].
  by rewrite sorted_missing in Hrun.
Qed.
End SortLemmas.

(** ** The binary search loop *)

Section BinaryLemmas.
Context {V : Type} `{PyStr V}.
Implicit Types (x : gmap string V) (data sorted_data : list (gmap string V)).
Implicit Types (s : analyzer V) (target_value : V) (search_column : string).

Lemma matches_str_at target_value search_column x :
  is_Some (x !! search_column) →
  matches target_value search_column x ↔ str_at search_column x = py_str target_value.
Proof.
  intros [v Hv]. unfold matches, str_at. rewrite Hv. cbn. split; congruence.
Qed.

Lemma matches_has target_value search_column x :
  matches target_value search_column x → is_Some (x !! search_column).
Proof. unfold matches. destruct (x !! search_column); [eauto|done]. Qed.

Lemma sorted_by_lookup search_column sorted_data (i j : nat) a b :
  sorted_by search_column sorted_data → (i ≤ j)%nat →
  sorted_data !! i = Some a → sorted_data !! j = Some b →
  str_le (str_at search_column a) (str_at search_column b).
Proof.
  intros Hsorted. revert i j.
  induction Hsorted as [|x l _ IH Hx]; intros i j Hij Hi Hj; [done|].
  destruct i as [|i], j as [|j]; cbn in Hi, Hj.
  - injection Hi as <-. injection Hj as <-. apply str_le_refl.
  - injection Hi as <-. rewrite Forall_forall in Hx. apply Hx.
    by eapply list_elem_of_lookup_2.
  - lia.
  - apply (IH i j); [lia|done..].
Qed.

Lemma getitem_list_ok {A} (l : list A) (i : Z) (a : A) s :
  0 ≤ i → l !! Z.to_nat i = Some a →
  getitem_list (S := analyzer V) (L := line V) l i s = Run [] s (Ok a).
Proof.
  intros Hi Ha. unfold getitem_list. apply lookup_lt_Some in Ha as Hlt.
  destruct (Z.ltb_spec i 0); [lia|].
  destruct (Z.leb_spec 0 i); [|lia].
  destruct (Z.ltb_spec i (Z.of_nat (length l))); [|lia].
  cbn. by rewrite Ha.
Qed.

Lemma getitem_dict_ok x search_column v s :
  x !! search_column = Some v →
  getitem_dict (S := analyzer V) (L := line V) x search_column s = Run [] s (Ok v).
Proof. intros Hv. unfold getitem_dict. by rewrite Hv. Qed.

Lemma mid_bounds (left_ right_ : Z) :
  left_ ≤ right_ →
  left_ ≤ (left_ + right_) `div` 2 ≤ right_
  ∧ left_ + right_ - 1 ≤ 2 * ((left_ + right_) `div` 2) ≤ left_ + right_.
Proof.
  intros Hle.
  pose proof (Z.div_mod (left_ + right_) 2 ltac:(lia)).
  pose proof (Z.mod_pos_bound (left_ + right_) 2 ltac:(lia)). lia.
Qed.

(** On a sorted list whose matching records all lie in the window, the loop
    returns, prints one line, and spends at most [m] comparisons on a window
    shorter than [2^m]. *)
Lemma binary_loop_spec sorted_data target_value search_column :
  has_column search_column sorted_data →
  sorted_by search_column sorted_data →
  ∀ (m : nat) left_ right_ comparisons s,
    0 ≤ left_ → right_ < Z.of_nat (length sorted_data) →
    right_ - left_ + 1 < 2 ^ Z.of_nat m →
    (∀ (i : nat) x, sorted_data !! i = Some x →
       matches target_value search_column x → left_ ≤ Z.of_nat i ≤ right_) →
    ∃ r,
      binary_loop sorted_data target_value search_column left_ right_ comparisons s
      = Run [binary_verdict r] s (Ok r)
      ∧ comparisons ≤ r.2 ≤ comparisons + Z.of_nat m
      ∧ match r.1 with
        | Some x =>
            x ∈ sorted_data ∧ matches target_value search_column x ∧ comparisons < r.2
        | None => ∀ x, x ∈ sorted_data → ¬ matches target_value search_column x
        end.
Proof.
  intros Hcol Hsorted m.
  induction m as [|m IH]; intros left_ right_ comparisons s Hleft Hright Hsize Hwin;
    rewrite binary_loop_equation_1; destruct (decide (left_ ≤ right_)) as [Hle|Hgt];
    cbn [binary_loop_unfold_clause_1].
  - cbn in Hsize. lia.
  - exists (None, comparisons). split; [reflexivity|]. split; [cbn; lia|].
    cbn. intros x [i Hi]%list_elem_of_lookup_1 Hx. specialize (Hwin i x Hi Hx). lia.
  - destruct (mid_bounds _ _ Hle) as [Hmid Hmid2].
    set (mid := (left_ + right_) `div` 2) in *.
    destruct (lookup_lt_is_Some_2 sorted_data (Z.to_nat mid)) as [rec Hrec]; [lia|].
    assert (is_Some (rec !! search_column)) as [v Hv].
    { unfold has_column in Hcol. rewrite Forall_forall in Hcol.
      apply Hcol. by eapply list_elem_of_lookup_2. }
    assert (str_at search_column rec = py_str v) as Hkey.
    { unfold str_at. by rewrite Hv. }
    assert (0 ≤ mid) as Hmid0 by lia.
    rewrite (run_bind_pure _ _ _ _ (getitem_list_ok _ _ _ _ Hmid0 Hrec)).
    rewrite (run_bind_pure _ _ _ _ (getitem_dict_ok _ _ _ _ Hv)).
    rewrite Nat2Z.inj_succ, Z.pow_succ_r in Hsize by lia.
    destruct (String.eqb (py_str v) (py_str target_value)) eqn:Eeq;
      [|destruct (String.ltb (py_str v) (py_str target_value)) eqn:Elt].
    + exists (Some rec, comparisons + 1). split; [reflexivity|]. split; [cbn; lia|].
      cbn. split; [by eapply list_elem_of_lookup_2|]. split; [|lia].
      apply matches_str_at; [eauto|]. rewrite Hkey. by apply String.eqb_eq.
    + destruct (IH (mid + 1) right_ (comparisons + 1) s) as (r & Hrun & Hcount & Hres);
        [lia|lia|lia| |].
      { intros i x Hi Hx. specialize (Hwin i x Hi Hx).
        destruct (decide (Z.of_nat i ≤ mid)) as [Hi_le|]; [|lia].
        assert (i ≤ Z.to_nat mid)%nat as Hnat by lia.
        pose proof (sorted_by_lookup _ _ _ _ _ _ Hsorted Hnat Hi Hrec) as Hord.
        apply matches_str_at in Hx; [|by eapply matches_has].
        unfold str_le in Hord. rewrite Hx, Hkey in Hord. congruence. }
      exists r. split; [exact Hrun|]. split; [lia|].
      destruct r as [[x|] c']; cbn in *; [|done].
      destruct Hres as (Hin & Hx & Hlt). repeat split; [done..|lia].
    + destruct (IH left_ (mid - 1) (comparisons + 1) s) as (r & Hrun & Hcount & Hres);
        [lia|lia|lia| |].
      { intros i x Hi Hx. specialize (Hwin i x Hi Hx).
        destruct (decide (mid ≤ Z.of_nat i)) as [Hi_ge|]; [|lia].
        assert (Z.to_nat mid ≤ i)%nat as Hnat by lia.
        pose proof (sorted_by_lookup _ _ _ _ _ _ Hsorted Hnat Hrec Hi) as Hord.
        apply matches_str_at in Hx; [|by eapply matches_has].
        unfold str_le in Hord. rewrite Hx, Hkey in Hord.
        pose proof (ltb_total _ _ Eeq Elt). congruence. }
      exists r. split; [exact Hrun|]. split; [lia|].
      destruct r as [[x|] c']; cbn in *; [|done].
      destruct Hres as (Hin & Hx & Hlt). repeat split; [done..|lia].
  - exists (None, comparisons). split; [reflexivity|]. split; [cbn; lia|].
    cbn. intros x [i Hi]%list_elem_of_lookup_1 Hx. specialize (Hwin i x Hi Hx). lia.
Qed.
End BinaryLemmas.

(** ** [binary_search] and [sequential_search] as a whole *)

Section SearchLemmas.
Context {V : Type} `{PyStr V}.
Implicit Types (x : gmap string V) (data : list (gmap string V)).
Implicit Types (s : analyzer V) (target_value : V) (search_column : string).

(** With the column in every record, [binary_search] returns: a matching
    record of the snapshot when there is one, the not-found pair otherwise,
    after at most [ceil(log2(N+1))] comparisons. *)
Lemma binary_search_has target_value search_column s :
  has_column search_column (product_data s) →
  ∃ r,
    binary_search target_value search_column s
    = Run [BinarySearching; binary_verdict r] s (Ok r)
    ∧ 0 ≤ r.2 ≤ Z.log2_up (Z.of_nat (length (product_data s)) + 1)
    ∧ match r.1 with
      | Some x =>
          x ∈ product_data s ∧ matches target_value search_column x ∧ 0 < r.2
      | None => ∀ x, x ∈ product_data s → ¬ matches target_value search_column x
      end.
Proof.
  intros Hcol.
  destruct (sorted_has search_column _ s Hcol) as (sorted_data & Hrun & Hperm & Hsorted).
  set (n := Z.of_nat (length (product_data s))).
  assert (length sorted_data = length (product_data s)) as Hlen by by rewrite Hperm.
  assert (0 ≤ Z.log2_up (n + 1)) as Hlog by apply Z.log2_up_nonneg.
  destruct (binary_loop_spec sorted_data target_value search_column
              ltac:(unfold has_column; by rewrite Hperm) Hsorted
              (Z.to_nat (Z.log2_up (n + 1))) 0 (n - 1) 0 s)
    as (r & Hloop & Hcount & Hres).
  { lia. }
  { lia. }
  { rewrite Z2Nat.id by done.
    pose proof (Z.log2_log2_up_spec (n + 1) ltac:(lia)). lia. }
  { intros i x Hi _. apply lookup_lt_Some in Hi. lia. }
  exists r. split; [|split].
  - unfold binary_search. rewrite (run_bind_pure _ _ s s) by reflexivity.
    erewrite (run_bind_pure (try_except _ _)); cycle 1.
    { apply run_try_ok. by rewrite (run_bind_pure _ _ _ _ Hrun). }
    cbn beta iota. erewrite run_bind_ok by reflexivity.
    rewrite Hlen. fold n. rewrite Hloop. reflexivity.
  - lia.
  - destruct r as [[x|] c]; cbn in *.
    + destruct Hres as (Hin & Hx & Hlt). by rewrite <-Hperm.
    + intros x Hin. apply Hres. by rewrite Hperm.
Qed.

(** As soon as one record lacks the column, [binary_search] prints its
    message and returns [(None, 0)]. *)
Lemma binary_search_missing target_value search_column s :
  ¬ has_column search_column (product_data s) →
  binary_search target_value search_column s
  = Run [ColumnNotFound search_column] s (Ok (None, 0)).
Proof.
  intros Hno. unfold binary_search. cbv [mbind M_bind bind try_except get].
  cbn [res self_after out]. rewrite sorted_missing by done. reflexivity.
Qed.

Lemma binary_search_frame target_value search_column s :
  self_after (binary_search target_value search_column s) = s.
Proof.
  destruct (decide (has_column search_column (product_data s))) as [Hcol|Hno].
  - destruct (binary_search_has target_value _ _ Hcol) as (r & -> & _). reflexivity.
  - by rewrite binary_search_missing.
Qed.

Lemma binary_search_returns target_value search_column s :
  ∃ r, res (binary_search target_value search_column s) = Ok r.
Proof.
  destruct (decide (has_column search_column (product_data s))) as [Hcol|Hno].
  - destruct (binary_search_has target_value _ _ Hcol) as (r & -> & _). by exists r.
  - rewrite binary_search_missing by done. by eexists.
Qed.

Lemma sequential_loop_found target_value search_column pre x post comparisons s :
  Forall (fun y => is_Some (y !! search_column)
                   ∧ ¬ matches target_value search_column y) pre →
  matches target_value search_column x →
  sequential_loop (pre ++ x :: post) target_value search_column comparisons s
  = Run [SequentialFound (comparisons + Z.of_nat (length pre) + 1)] s
        (Ok (Some x, comparisons + Z.of_nat (length pre) + 1)).
Proof.
  intros Hpre Hx. revert comparisons.
  induction Hpre as [|y pre [[v Hv] Hy] _ IH]; intros comparisons; cbn [app sequential_loop].
  - pose proof Hx as Hm. unfold matches in Hm.
    destruct (x !! search_column) as [v|] eqn:Hv; [|done].
    rewrite (run_bind_pure _ _ _ _ (getitem_dict_ok _ _ _ _ Hv)).
    injection Hm as Hm. rewrite Hm, String.eqb_refl. cbn [length].
    replace (comparisons + Z.of_nat 0 + 1) with (comparisons + 1) by lia. reflexivity.
  - rewrite (run_bind_pure _ _ _ _ (getitem_dict_ok _ _ _ _ Hv)).
    destruct (String.eqb (py_str v) (py_str target_value)) eqn:E.
    + destruct Hy. unfold matches. rewrite Hv. cbn. f_equal. by apply String.eqb_eq.
    + rewrite IH. cbn [length].
      replace (comparisons + 1 + Z.of_nat (length pre) + 1)
        with (comparisons + Z.of_nat (S (length pre)) + 1) by lia.
      reflexivity.
Qed.

Lemma sequential_loop_not_found target_value search_column data comparisons s :
  Forall (fun y => is_Some (y !! search_column)
                   ∧ ¬ matches target_value search_column y) data →
  sequential_loop data target_value search_column comparisons s
  = Run [SequentialNotFound (comparisons + Z.of_nat (length data))] s
        (Ok (None, comparisons + Z.of_nat (length data))).
Proof.
  intros Hdata. revert comparisons.
  induction Hdata as [|y data [[v Hv] Hy] _ IH]; intros comparisons; cbn [sequential_loop].
  - cbn [length]. replace (comparisons + Z.of_nat 0) with comparisons by lia. reflexivity.
  - rewrite (run_bind_pure _ _ _ _ (getitem_dict_ok _ _ _ _ Hv)).
    destruct (String.eqb (py_str v) (py_str target_value)) eqn:E.
    + destruct Hy. unfold matches. rewrite Hv. cbn. f_equal. by apply String.eqb_eq.
    + rewrite IH. cbn [length].
      replace (comparisons + 1 + Z.of_nat (length data))
        with (comparisons + Z.of_nat (S (length data))) by lia.
      reflexivity.
Qed.

Lemma sequential_loop_raises target_value search_column pre x post comparisons s :
  Forall (fun y => is_Some (y !! search_column)
                   ∧ ¬ matches target_value search_column y) pre →
  x !! search_column = None →
  sequential_loop (pre ++ x :: post) target_value search_column comparisons s
  = Run [] s (Raise (KeyError search_column)).
Proof.
  intros Hpre Hx. revert comparisons.
  induction Hpre as [|y pre [[v Hv] Hy] _ IH]; intros comparisons; cbn [app sequential_loop].
  - erewrite run_bind_raise; [reflexivity|]. unfold getitem_dict. by rewrite Hx.
  - rewrite (run_bind_pure _ _ _ _ (getitem_dict_ok _ _ _ _ Hv)).
    destruct (String.eqb (py_str v) (py_str target_value)) eqn:E.
    + destruct Hy. unfold matches. rewrite Hv. cbn. f_equal. by apply String.eqb_eq.
    + apply IH.
Qed.

Lemma sequential_search_unfold target_value search_column s :
  sequential_search target_value search_column s
  = let r := sequential_loop (product_data s) target_value search_column 0 s in
    Run (SequentialSearching :: out r) (self_after r) (res r).
Proof.
  unfold sequential_search. erewrite run_bind_ok by reflexivity.
  rewrite (run_bind_pure _ _ s s) by reflexivity. reflexivity.
Qed.

(** A snapshot with the column everywhere has a first matching record or
    none at all. *)
Lemma first_match target_value search_column data :
  has_column search_column data →
  Forall (fun y => is_Some (y !! search_column)
                   ∧ ¬ matches target_value search_column y) data
  ∨ ∃ pre x post,
      data = pre ++ x :: post
      ∧ Forall (fun y => is_Some (y !! search_column)
                         ∧ ¬ matches target_value search_column y) pre
      ∧ matches target_value search_column x.
Proof.
  induction 1 as [|y data Hy _ IH]; [by left|].
  destruct (decide (matches target_value search_column y)) as [Hm|Hm].
  - right. exists [], y, data. by repeat split.
  - destruct IH as [IH|(pre & x & post & -> & Hpre & Hx)].
    + left. by constructor.
    + right. exists (y :: pre), x, post. repeat split; [|done]. by constructor.
Qed.
End SearchLemmas.

(** ** The searches on the snapshot *)

Section SearchTheorems.
Context {V : Type} `{PyStr V}.
Implicit Types (x y : gmap string V) (data : list (gmap string V)).
Implicit Types (s : analyzer V) (target_value : V) (search_column : string).

(** C1, as amended.  On a snapshot whose records all have the column, binary
    search and sequential search agree on whether a match is found, and when
    they return different records, two records at different positions of the
    snapshot share the string form of their column value. *)
Theorem searches_agree target_value search_column s :
  has_column search_column (product_data s) →
  agree (res (binary_search target_value search_column s))
        (res (sequential_search target_value search_column s))
  ∧ ∀ x y cb cs,
      res (binary_search target_value search_column s) = Ok (Some x, cb) →
      res (sequential_search target_value search_column s) = Ok (Some y, cs) →
      x ≠ y →
      ∃ i j : nat,
        i ≠ j ∧ product_data s !! i = Some x ∧ product_data s !! j = Some y
        ∧ str_at search_column x = str_at search_column y.
Proof.
  intros Hcol.
  destruct (binary_search_has target_value _ _ Hcol) as ([ob cb'] & Hb & _ & Hres).
  rewrite sequential_search_unfold, Hb. cbn [res fst snd] in *.
  destruct (first_match target_value _ _ Hcol)
    as [Hnone|(pre & y' & post & Hdata & Hpre & Hy')].
  - rewrite sequential_loop_not_found by done. cbn [res].
    destruct ob as [x'|].
    + destruct Hres as (Hin & Hx' & _). rewrite Forall_forall in Hnone.
      by destruct (Hnone _ Hin).
    + split; [right; split; eexists; reflexivity|]. intros; discriminate.
  - rewrite Hdata, sequential_loop_found by done. cbn [res].
    destruct ob as [x'|].
    + split; [left; split; eexists _, _; reflexivity|].
      intros x y cb cs [= <- <-] [= <- <-] Hne.
      destruct Hres as (Hin & Hx' & _).
      apply list_elem_of_lookup_1 in Hin as [i Hi].
      exists i, (length pre). rewrite Hdata in Hi. split; [|split; [done|split]].
      * intros ->. rewrite list_lookup_middle in Hi by done. congruence.
      * by apply list_lookup_middle.
      * apply matches_str_at in Hx', Hy'; [congruence|by eapply matches_has..].
    + destruct (Hres y'); [|done]. rewrite Hdata. set_solver.
Qed.

(** C2.  With the column in every record, sequential search returns the first
    record, in snapshot order, whose column value has the target's string
    form, with a comparison count of that record's index plus one; with no
    such record it returns not-found with a count equal to the snapshot
    length. *)
Theorem sequential_search_first_match target_value search_column s :
  has_column search_column (product_data s) →
  (∀ pre x post,
     product_data s = pre ++ x :: post →
     Forall (fun y => ¬ matches target_value search_column y) pre →
     matches target_value search_column x →
     res (sequential_search target_value search_column s)
     = Ok (Some x, Z.of_nat (length pre) + 1))
  ∧ (Forall (fun y => ¬ matches target_value search_column y) (product_data s) →
     res (sequential_search target_value search_column s)
     = Ok (None, Z.of_nat (length (product_data s)))).
Proof.
  intros Hcol. unfold has_column in Hcol. split.
  - intros pre x post Hdata Hpre Hx. rewrite sequential_search_unfold, Hdata.
    rewrite sequential_loop_found; [reflexivity| |done].
    rewrite Hdata in Hcol. apply Forall_app in Hcol as [Hcol _].
    rewrite Forall_forall in Hcol, Hpre |- *. naive_solver.
  - intros Hnone. rewrite sequential_search_unfold.
    rewrite sequential_loop_not_found; [reflexivity|].
    rewrite Forall_forall in Hcol, Hnone |- *. naive_solver.
Qed.

(** C3, as amended.  On a non-empty snapshot of size N whose records all
    have the column, when some record's column value has the target's
    string form, binary search returns a matching record of the snapshot
    after at least one and at most ceil(log2(N+1)) turns of its loop over the
    sorted working copy. *)
Theorem binary_search_finds_within_log target_value search_column s :
  product_data s ≠ [] →
  has_column search_column (product_data s) →
  Exists (matches target_value search_column) (product_data s) →
  ∃ x comparisons,
    res (binary_search target_value search_column s) = Ok (Some x, comparisons)
    ∧ x ∈ product_data s
    ∧ matches target_value search_column x
    ∧ 1 ≤ comparisons ≤ Z.log2_up (Z.of_nat (length (product_data s)) + 1).
Proof.
  intros _ Hcol Hex.
  destruct (binary_search_has target_value _ _ Hcol) as ([[x|] c] & Hb & Hc & Hres);
    cbn [fst snd] in *.
  - exists x, c. rewrite Hb. destruct Hres as (Hin & Hx & Hpos).
    repeat split; [done..|lia|lia].
  - apply Exists_exists in Hex as (x & Hin & Hx). by destruct (Hres x Hin).
Qed.

Lemma binary_search_empty params connection target_value search_column :
  res (binary_search target_value search_column (Analyzer params connection []))
  = Ok (None, 0).
Proof.
  destruct (binary_search_has target_value search_column
              (Analyzer params connection []) ltac:(constructor))
    as ([[x|] c] & -> & Hc & Hres); cbn [fst snd product_data res] in *.
  - destruct Hres as (Hin & _). by apply elem_of_nil in Hin.
  - change (Z.log2_up _) with 0 in Hc. do 2 f_equal. lia.
Qed.

(** C4.  On an empty snapshot both searches return, whatever the target and
    the column, the not-found pair with 0 comparisons; neither raises. *)
Theorem empty_snapshot_zero_comparisons params connection target_value search_column :
  res (binary_search target_value search_column (Analyzer params connection []))
  = Ok (None, 0)
  ∧ res (sequential_search target_value search_column (Analyzer params connection []))
    = Ok (None, 0).
Proof.
  split; [apply binary_search_empty|reflexivity].
Qed.

(** C9.  Running binary search leaves the snapshot as it was: the snapshot
    held by the analyzer after the call is the snapshot before it. *)
Theorem binary_search_keeps_snapshot target_value search_column s :
  product_data (self_after (binary_search target_value search_column s))
  = product_data s.
Proof. by rewrite binary_search_frame. Qed.

(** C10.  On a non-empty snapshot none of whose records has the column,
    sequential search raises [KeyError] to its caller, while binary search
    returns the pair (no record, 0 comparisons), which is also what it
    returns on the empty snapshot. *)
Theorem missing_column_raises_or_returns target_value search_column s :
  product_data s ≠ [] →
  Forall (fun x => x !! search_column = None) (product_data s) →
  res (sequential_search target_value search_column s) = Raise (KeyError search_column)
  ∧ res (binary_search target_value search_column s) = Ok (None, 0)
  ∧ res (binary_search target_value search_column s)
    = res (binary_search target_value search_column
             (Analyzer (connection_params s) (connection s) [])).
Proof.
  intros Hne Hnone.
  assert (res (binary_search target_value search_column s) = Ok (None, 0)) as Hb.
  { rewrite binary_search_missing; [done|]. intros Hcol.
    destruct (product_data s) as [|x data]; [done|].
    apply Forall_cons in Hnone as [Hx _]. apply Forall_cons in Hcol as [[v Hv] _].
    congruence. }
  split; [|split; [done|]].
  - rewrite sequential_search_unfold.
    destruct (product_data s) as [|x data]; [done|].
    apply Forall_cons in Hnone as [Hx _].
    by rewrite (sequential_loop_raises target_value search_column [] x data).
  - rewrite Hb. symmetry. apply binary_search_empty.
Qed.
End SearchTheorems.

(** ** The searches on sample snapshots *)

Lemma searches_agree_witness :
  agree (res (binary_search (Text "Books") "product_category" three_customers))
        (res (sequential_search (Text "Books") "product_category" three_customers))
  ∧ ∀ x y cb cs,
      res (binary_search (Text "Books") "product_category" three_customers)
      = Ok (Some x, cb) →
      res (sequential_search (Text "Books") "product_category" three_customers)
      = Ok (Some y, cs) →
      x ≠ y →
      ∃ i j : nat,
        i ≠ j ∧ product_data three_customers !! i = Some x
        ∧ product_data three_customers !! j = Some y
        ∧ str_at "product_category" x = str_at "product_category" y.
Proof.
  apply (searches_agree (Text "Books") "product_category" three_customers).
  unfold has_column. by_evaluation.
Defined.

(** On that sample the two searches do return different records: sequential
    search the first of the two books, binary search the one the sort put at
    the midpoint. *)
Example searches_differ_on_duplicates :
  res (binary_search (Text "Books") "product_category" three_customers) = Ok (Some cyd, 1)
  ∧ res (sequential_search (Text "Books") "product_category" three_customers)
    = Ok (Some ann, 1)
  ∧ cyd ≠ ann.
Proof.
  repeat split; by_evaluation.
Qed.

(** C1, as stated, fails.  On a snapshot whose second record lacks the
    column, sequential search returns the first record while binary search
    returns not-found; on a snapshot that lacks the column altogether, binary
    search returns not-found while sequential search returns nothing. *)
Lemma searches_disagree :
  ¬ agree (res (binary_search (Int 1) "customer_id" ragged))
          (res (sequential_search (Int 1) "customer_id" ragged))
  ∧ ¬ agree (res (binary_search (Int 1) "discount" three_customers))
            (res (sequential_search (Int 1) "discount" three_customers)).
Proof.
  assert (res (binary_search (Int 1) "customer_id" ragged) = Ok (None, 0)) as Hb1
    by by_evaluation.
  assert (res (sequential_search (Int 1) "customer_id" ragged) = Ok (Some ann, 1)) as Hs1
    by by_evaluation.
  assert (res (sequential_search (Int 1) "discount" three_customers)
          = Raise (KeyError "discount")) as Hs2 by by_evaluation.
  rewrite Hb1, Hs1, Hs2. unfold agree, found, not_found.
  split; intros [[(? & ? & ?) (? & ? & ?)]|[(? & ?) (? & ?)]]; discriminate.
Qed.

Lemma sequential_search_first_match_witness :
  res (sequential_search (Int 2) "customer_id" three_customers) = Ok (Some bob, 2)
  ∧ res (sequential_search (Int 7) "customer_id" three_customers) = Ok (None, 3).
Proof.
  assert (has_column "customer_id" (product_data three_customers)) as Hcol
    by (unfold has_column; by_evaluation).
  destruct (sequential_search_first_match (Int 2) "customer_id" three_customers Hcol)
    as [Hfound _].
  destruct (sequential_search_first_match (Int 7) "customer_id" three_customers Hcol)
    as [_ Hnone].
  split.
  - apply (Hfound [ann] bob [cyd]); [reflexivity|by_evaluation|by_evaluation].
  - apply Hnone. by_evaluation.
Defined.

Lemma binary_search_finds_within_log_witness :
  ∃ x comparisons,
    res (binary_search (Int 2) "customer_id" three_customers) = Ok (Some x, comparisons)
    ∧ x ∈ product_data three_customers
    ∧ matches (Int 2) "customer_id" x
    ∧ 1 ≤ comparisons ≤ Z.log2_up (Z.of_nat (length (product_data three_customers)) + 1).
Proof.
  apply (binary_search_finds_within_log (Int 2) "customer_id" three_customers).
  - discriminate.
  - unfold has_column. by_evaluation.
  - by_evaluation.
Defined.

(** C3, as stated, fails.  The snapshot is not empty and the target's string
    form occurs in the column, in the first record; the second record lacks
    the column, so [sorted] raises, and binary search returns the not-found
    pair without a single comparison. *)
Lemma binary_search_misses_on_ragged :
  product_data ragged ≠ []
  ∧ Exists (matches (Int 1) "customer_id") (product_data ragged)
  ∧ res (binary_search (Int 1) "customer_id" ragged) = Ok (None, 0)
  ∧ ¬ found (res (binary_search (Int 1) "customer_id" ragged)).
Proof.
  assert (res (binary_search (Int 1) "customer_id" ragged) = Ok (None, 0)) as Hb
    by by_evaluation.
  split; [discriminate|]. split; [by_evaluation|]. split; [done|].
  rewrite Hb. by intros (x & c & [=]).
Qed.

Lemma missing_column_raises_or_returns_witness :
  res (sequential_search (Int 1) "discount" three_customers) = Raise (KeyError "discount")
  ∧ res (binary_search (Int 1) "discount" three_customers) = Ok (None, 0)
  ∧ res (binary_search (Int 1) "discount" three_customers)
    = res (binary_search (Int 1) "discount" (Analyzer [] None [])).
Proof.
  apply (missing_column_raises_or_returns (Int 1) "discount" three_customers).
  - discriminate.
  - by_evaluation.
Defined.

(** C5 fails on the code.  With a column no record has, binary search prints
    its message and returns [(None, 0)], the pair it also returns for a miss
    on the empty snapshot, while sequential search lets [KeyError] through:
    the two contracts differ. *)
Theorem missing_column_contracts_differ :
  out (binary_search (Int 1) "discount" three_customers) = [ColumnNotFound "discount"]
  ∧ res (binary_search (Int 1) "discount" three_customers) = Ok (None, 0)
  ∧ out (sequential_search (Int 1) "discount" three_customers) = [SequentialSearching]
  ∧ res (sequential_search (Int 1) "discount" three_customers)
    = Raise (KeyError "discount")
  ∧ res (binary_search (Int 1) "discount" three_customers)
    = res (binary_search (Int 1) "discount" no_customers).
Proof. repeat split; by_evaluation. Qed.

(** ** The query executor and the reporter *)

Section ReporterLemmas.
Context {V : Type} `{PyStr V}.
Implicit Types (s : analyzer V) (search_value : V) (column : string).

(** A lookup never raises, leaves the analyzer alone and prints no speedup
    line. *)
Lemma database_search_run indexed search_value column s :
  ∃ o r,
    database_search indexed search_value column s = Run o s (Ok r)
    ∧ ∀ q, Speedup q ∉ o.
Proof.
  unfold database_search. rewrite (run_bind_pure _ _ s s) by reflexivity.
  destruct (connection s) as [c|].
  - destruct (select_where c column search_value) as [e|result query_time].
    + eexists _, _. split; [reflexivity|]. intros q. cbn. absent_line.
    + destruct (row_truthy result);
        (eexists _, _; split; [reflexivity|]; intros q; cbn; absent_line).
  - eexists _, _. split; [reflexivity|]. intros q. cbn. absent_line.
Qed.

(** A failed round trip, like a missing connection, comes back as no result
    and zero elapsed time. *)
Lemma database_search_error_sentinel indexed search_value column s :
  (connection s = None
   ∨ ∃ c e, connection s = Some c ∧ select_where c column search_value = QueryRaises e) →
  res (database_search indexed search_value column s) = Ok (None, 0%Q).
Proof.
  unfold database_search. rewrite (run_bind_pure _ _ s s) by reflexivity.
  intros [->|(c & e & -> & ->)]; reflexivity.
Qed.

Lemma print_fields_run (items : list (string * V)) s :
  print_fields items s = Run ((fun kv => Field kv.1 kv.2) <$> items) s (Ok tt).
Proof.
  induction items as [|[key value] items IH]; [reflexivity|].
  cbn [print_fields]. erewrite run_bind_ok by reflexivity. by rewrite IH.
Qed.

(** When both searches return, the reporter completes, and the only speedup
    line it can print is the ratio of the two counts, when both are positive. *)
Lemma reporter_run search_value column s ob rb os rs :
  binary_search search_value column s = Run ob s (Ok rb) →
  sequential_search search_value column s = Run os s (Ok rs) →
  ∃ before after,
    perform_search_comparison search_value column s
    = Run (before ++ ob ++ os
           ++ [PerformanceComparison] ++ after.1
           ++ (if (0 <? rs.2) && (0 <? rb.2)
               then [Speedup (Qdiv (inject_Z rs.2) (inject_Z rb.2))] else [])
           ++ after.2) s (Ok tt)
    ∧ (∀ q, Speedup q ∉ before) ∧ (∀ q, Speedup q ∉ after.1) ∧ (∀ q, Speedup q ∉ after.2).
Proof.
  intros Hb Hs. unfold perform_search_comparison.
  destruct (database_search_run (bool_decide (column ∈ indexed_columns))
              search_value column s) as (odb & [db_result db_time] & Hdb & Hodb).
  assert ((if bool_decide (column ∈ indexed_columns)
           then database_search_indexed search_value column
           else database_search_unindexed search_value column) s
          = Run odb s (Ok (db_result, db_time))) as Hdb'.
  { rewrite <-Hdb. unfold database_search_indexed, database_search_unindexed.
    by destruct (bool_decide _). }
  destruct rb as [binary_result binary_comparisons].
  destruct rs as [sequential_result sequential_comparisons].
  exists ([SearchingFor column search_value; Rule 60;
           ColumnIndexed column (bool_decide (column ∈ indexed_columns))] ++ odb).
  exists ([DbTime db_time; BinaryComparisons binary_comparisons;
           SequentialComparisons sequential_comparisons],
          match db_result with
          | Some (item :: items) =>
              FoundRecord :: ((fun kv => Field kv.1 kv.2) <$> (item :: items))
          | _ => [NoRecordFound column search_value]
          end).
  split; [|split; [|split]].
  - cbv [mbind M_bind bind print mret M_ret ret].
    rewrite Hdb'. cbn [fst snd]. rewrite Hb. cbn [fst snd]. rewrite Hs. cbn [fst snd].
    destruct ((0 <? sequential_comparisons) && (0 <? binary_comparisons));
      destruct db_result as [[|item items]|];
      rewrite ?print_fields_run; cbn [fst snd]; rewrite <-?app_assoc; reflexivity.
  - intros q [Hq|Hq]%elem_of_app; [revert Hq; absent_line|by apply (Hodb q)].
  - intros q. cbn. absent_line.
  - intros q. cbn. destruct db_result as [[|item items]|]; [absent_line| |absent_line].
    intros [Hq|Hq]%elem_of_cons; [done|].
    change (Speedup q ∈ (fun kv => Field kv.1 kv.2) <$> item :: items) in Hq.
    apply list_elem_of_fmap in Hq as (kv & Hq & _). done.
Qed.

Lemma ratio_at_least_one (a b : Z) :
  0 < b → b ≤ a → Qle 1 (Qdiv (inject_Z a) (inject_Z b)).
Proof.
  intros Hb Hab. unfold Qle, Qdiv, Qmult, Qinv, inject_Z. cbn.
  destruct b as [|b|b]; [lia| |lia]. cbn. lia.
Qed.

Lemma log2_up_succ_le (n : Z) : 0 ≤ n → Z.log2_up (n + 1) ≤ n.
Proof.
  intros Hn. destruct (decide (n = 0)) as [->|Hne]; [done|].
  apply Z.log2_up_le_pow2; [lia|].
  pose proof (Z.pow_gt_lin_r 2 n ltac:(lia) ltac:(lia)). lia.
Qed.
End ReporterLemmas.

Section ReporterTheorems.
Context {V : Type} `{PyStr V}.
Implicit Types (s : analyzer V) (search_value : V) (column : string).

Lemma sequential_search_has search_value column s :
  has_column column (product_data s) →
  ∃ o r,
    sequential_search search_value column s = Run o s (Ok r)
    ∧ (∀ q, Speedup q ∉ o)
    ∧ (r.2 = Z.of_nat (length (product_data s))
       ∨ ∃ pre x post,
           product_data s = pre ++ x :: post
           ∧ matches search_value column x
           ∧ r.2 = Z.of_nat (length pre) + 1).
Proof.
  intros Hcol. rewrite sequential_search_unfold.
  destruct (first_match search_value _ _ Hcol)
    as [Hnone|(pre & x & post & Hdata & Hpre & Hx)].
  - rewrite sequential_loop_not_found by done. eexists _, _.
    split; [reflexivity|]. split; [intros q; absent_line|]. left. cbn [snd]. lia.
  - pose proof (sequential_loop_found search_value column pre x post 0 s Hpre Hx) as Hloop.
    rewrite <-Hdata in Hloop. rewrite Hloop. eexists _, _.
    split; [reflexivity|]. split; [intros q; absent_line|].
    right. exists pre, x, post. split; [done|]. split; [done|]. cbn [snd]. lia.
Qed.

(** C8, as amended.  On a snapshot of size N whose records all have the
    column, when none of the first ceil(log2(N+1)) - 1 records has the
    target's string form in the column (as when no record has it at all),
    every speedup ratio the reporter prints is at least 1. *)
Theorem speedup_at_least_one_past_log search_value column s :
  has_column column (product_data s) →
  Forall (fun x => ¬ matches search_value column x)
    (take (Z.to_nat (Z.log2_up (Z.of_nat (length (product_data s)) + 1) - 1))
       (product_data s)) →
  speedup_at_least_one (out (perform_search_comparison search_value column s)).
Proof.
  intros Hcol Hlate.
  destruct (binary_search_has search_value _ _ Hcol) as (rb & Hb & Hcb & Hrb).
  destruct (sequential_search_has search_value _ _ Hcol) as (os & rs & Hs & Hos & Hcs).
  destruct (reporter_run _ _ _ _ _ _ _ Hb Hs)
    as (before & after & -> & Hbefore & Hafter1 & Hafter2).
  set (n := Z.of_nat (length (product_data s))) in *.
  assert (Z.log2_up (n + 1) ≤ rs.2) as Hlog.
  { destruct Hcs as [->|(pre & x & post & Hdata & Hx & ->)].
    - apply log2_up_succ_le. lia.
    - destruct (decide (Z.log2_up (n + 1) ≤ Z.of_nat (length pre) + 1)) as [|Hearly];
        [done|].
      rewrite Forall_forall in Hlate. destruct (Hlate x); [|done].
      apply list_elem_of_lookup_2 with (length pre).
      rewrite lookup_take_lt by lia. rewrite Hdata. by apply list_lookup_middle. }
  intros q. cbn [out]. rewrite !elem_of_app.
  intros [Hq|[Hq|[Hq|[Hq|[Hq|[Hq|Hq]]]]]].
  - by destruct (Hbefore q).
  - revert Hq. unfold binary_verdict. destruct rb.1; absent_line.
  - by destruct (Hos q).
  - revert Hq. absent_line.
  - by destruct (Hafter1 q).
  - destruct (Z.ltb_spec 0 rs.2), (Z.ltb_spec 0 rb.2); cbn in Hq;
      try by apply elem_of_nil in Hq.
    apply list_elem_of_singleton in Hq as [= ->].
    apply ratio_at_least_one; lia.
  - by destruct (Hafter2 q).
Qed.

(** C7 fails on the code.  When the store rejects the query and no record
    of the non-empty snapshot has the column, both lookups come back as no
    result and zero elapsed time, but the reporter does not complete: it
    raises [KeyError] before it prints its summary. *)
Theorem reporter_raises_on_unknown_column search_value column s c e :
  connection s = Some c →
  select_where c column search_value = QueryRaises e →
  product_data s ≠ [] →
  Forall (fun x => x !! column = None) (product_data s) →
  res (database_search_indexed search_value column s) = Ok (None, 0%Q)
  ∧ res (database_search_unindexed search_value column s) = Ok (None, 0%Q)
  ∧ res (perform_search_comparison search_value column s) = Raise (KeyError column)
  ∧ PerformanceComparison ∉ out (perform_search_comparison search_value column s).
Proof.
  intros Hc He Hne Hnone.
  assert (∀ indexed, database_search indexed search_value column s
                     = Run [DbQueryError e] s (Ok (None, 0%Q))) as Hdb.
  { intros indexed. unfold database_search.
    rewrite (run_bind_pure _ _ s s) by reflexivity. by rewrite Hc, He. }
  assert (binary_search search_value column s
          = Run [ColumnNotFound column] s (Ok (None, 0))) as Hb.
  { apply binary_search_missing. intros Hcol.
    destruct (product_data s) as [|x data]; [done|].
    apply Forall_cons in Hnone as [Hx _]. apply Forall_cons in Hcol as [[v Hv] _].
    congruence. }
  assert (sequential_search search_value column s
          = Run [SequentialSearching] s (Raise (KeyError column))) as Hs.
  { rewrite sequential_search_unfold.
    destruct (product_data s) as [|x data]; [done|].
    apply Forall_cons in Hnone as [Hx _].
    by rewrite (sequential_loop_raises search_value column [] x data). }
  split; [|split].
  - unfold database_search_indexed. by rewrite Hdb.
  - unfold database_search_unindexed. by rewrite Hdb.
  - unfold perform_search_comparison, database_search_indexed, database_search_unindexed.
    cbv [mbind M_bind bind print mret M_ret ret].
    destruct (bool_decide (column ∈ indexed_columns));
      rewrite Hdb; cbn [fst snd]; rewrite Hb; cbn [fst snd];
      rewrite Hs; cbn [res out]; (split; [reflexivity|absent_line]).
Qed.

Lemma load_db_config_run (env : environment V) s :
  ∃ o params,
    load_db_config env s = Run o s (Ok params) ∧ NoDataCannotProceed ∉ o.
Proof.
  unfold load_db_config.
  match goal with |- context [match ?l with [] => _ | _ :: _ => _ end] => destruct l end;
    eexists _, _; (split; [reflexivity|cbn; absent_line]).
Qed.

(** C6 fails on the code.  When [psycopg2.connect] raises, the attempt to fall
    back on the flat file raises [AttributeError] in turn, which leaves [main]
    uncaught, before any "no data" line is printed. *)
Theorem connection_failure_is_uncaught (env : environment V) session s0 :
  (∀ params, ∃ e, psycopg2_connect env params = inl e) →
  res (main env session s0) = Raise (AttributeError "load_from_csv")
  ∧ NoDataCannotProceed ∉ out (main env session s0).
Proof.
  intros Hdown.
  destruct (load_db_config_run env s0) as (o & params & Hconfig & Ho).
  destruct (Hdown params) as [e He].
  assert (init env s0
          = Run (o ++ [ConnectError e; TryingCsv]) (Analyzer params None [])
                (Raise (AttributeError "load_from_csv"))) as Hinit.
  { unfold init, connect_to_database.
    cbv [mbind M_bind bind print put get try_except raise].
    rewrite Hconfig. cbn [connection_params]. rewrite He.
    cbn [app]. reflexivity. }
  unfold main. cbv [mbind M_bind bind print mret M_ret ret].
  destruct (env_file_exists env); rewrite Hinit; cbn [res out self_after];
    (split; [reflexivity|]); rewrite !not_elem_of_app;
    repeat split; first [exact Ho|absent_line].
Qed.
End ReporterTheorems.

Lemma speedup_at_least_one_past_log_witness :
  speedup_at_least_one (out (perform_search_comparison (Int 3) "customer_id" three_customers)).
Proof.
  apply (speedup_at_least_one_past_log (Int 3) "customer_id" three_customers).
  - unfold has_column. by_evaluation.
  - by_evaluation.
Defined.

(** On that sample a ratio is printed: 3 comparisons against 2. *)
Example speedup_three_halves :
  Speedup (3 # 2)
  ∈ out (perform_search_comparison (Int 3) "customer_id" three_customers).
Proof. by_evaluation. Qed.

(** C8, as stated, fails.  Four records with four different customer
    numbers, the target second in the snapshot and last in sorted order:
    sequential search needs 2 comparisons, binary search 3, and the reporter
    prints a ratio of 2/3. *)
Lemma speedup_below_one :
  (1 < length (product_data four_customers))%nat
  ∧ NoDup (str_at "customer_id" <$> product_data four_customers)
  ∧ res (sequential_search (Int 4) "customer_id" four_customers) = Ok (Some dee, 2)
  ∧ res (binary_search (Int 4) "customer_id" four_customers) = Ok (Some dee, 3)
  ∧ ¬ speedup_at_least_one
        (out (perform_search_comparison (Int 4) "customer_id" four_customers)).
Proof.
  split; [cbn; lia|]. split; [by_evaluation|].
  split; [by_evaluation|]. split; [by_evaluation|].
  intros Hall.
  assert (Speedup (2 # 3)
          ∈ out (perform_search_comparison (Int 4) "customer_id" four_customers)) as Hin
    by by_evaluation.
  specialize (Hall _ Hin). by vm_compute in Hall.
Qed.

Lemma reporter_raises_on_unknown_column_witness :
  res (database_search_indexed (Int 1) "discount" connected_customers) = Ok (None, 0%Q)
  ∧ res (database_search_unindexed (Int 1) "discount" connected_customers)
    = Ok (None, 0%Q)
  ∧ res (perform_search_comparison (Int 1) "discount" connected_customers)
    = Raise (KeyError "discount")
  ∧ PerformanceComparison
    ∉ out (perform_search_comparison (Int 1) "discount" connected_customers).
Proof.
  apply (reporter_raises_on_unknown_column (Int 1) "discount" connected_customers
           strict_store (OperationalError "column does not exist")).
  - reflexivity.
  - by vm_compute.
  - discriminate.
  - by_evaluation.
Defined.

Lemma connection_failure_is_uncaught_witness :
  res (main unreachable (mret tt) no_customers) = Raise (AttributeError "load_from_csv")
  ∧ NoDataCannotProceed ∉ out (main unreachable (mret tt) no_customers).
Proof.
  apply (connection_failure_is_uncaught unreachable (mret tt) no_customers).
  intros params. by eexists.
Defined.

(** ** More on the two searches *)

Section MoreSearch.
Context {V : Type} `{PyStr V}.
Implicit Types (x y : gmap string V) (data : list (gmap string V)).
Implicit Types (s : analyzer V) (target_value : V) (search_column : string).

(** X1.  [binary_search] never raises: whatever the snapshot, the column and
    the target, it returns a pair.  It prints the column-not-found message
    exactly when some record lacks the column, and then that message is all
    it prints and the pair it returns is [(None, 0)]. *)
Theorem binary_search_never_raises target_value search_column s :
  (∃ r, res (binary_search target_value search_column s) = Ok r)
  ∧ (ColumnNotFound search_column ∈ out (binary_search target_value search_column s)
     ↔ ¬ has_column search_column (product_data s))
  ∧ (¬ has_column search_column (product_data s) →
     out (binary_search target_value search_column s) = [ColumnNotFound search_column]
     ∧ res (binary_search target_value search_column s) = Ok (None, 0)).
Proof.
  destruct (decide (has_column search_column (product_data s))) as [Hcol|Hno].
  - destruct (binary_search_has target_value _ _ Hcol) as (r & -> & _).
    split; [by exists r|]. split; [|done]. split; [|done]. cbn [out].
    unfold binary_verdict. destruct r.1; absent_line.
  - rewrite binary_search_missing by done. split; [by eexists|].
    split; [|done]. split; [done|]. intros _. cbn. apply list_elem_of_here.
Qed.

(** A miss costs at least [m] turns on a window of [2^m - 1] records or more. *)
Lemma binary_loop_miss_lower sorted_data target_value search_column :
  has_column search_column sorted_data →
  ∀ (n : nat) (m : Z) left_ right_ comparisons s c,
    0 ≤ left_ → right_ < Z.of_nat (length sorted_data) →
    right_ - left_ + 1 ≤ Z.of_nat n →
    0 ≤ m → 2 ^ m ≤ right_ - left_ + 2 →
    res (binary_loop sorted_data target_value search_column left_ right_ comparisons s)
    = Ok (None, c) →
    comparisons + m ≤ c.
Proof.
  intros Hcol n.
  induction n as [|n IH]; intros m left_ right_ comparisons s c Hleft Hright Hn Hm Hsize;
    rewrite binary_loop_equation_1; destruct (decide (left_ ≤ right_)) as [Hle|Hgt];
    cbn [binary_loop_unfold_clause_1]; try lia.
  - intros [= <-]. destruct (decide (m = 0)) as [->|]; [lia|].
    pose proof (Z.pow_le_mono_r 2 1 m ltac:(lia) ltac:(lia)) as Hpow.
    change (2 ^ 1) with 2 in Hpow. lia.
  - destruct (mid_bounds _ _ Hle) as [Hmid Hmid2].
    set (mid := (left_ + right_) `div` 2) in *.
    destruct (lookup_lt_is_Some_2 sorted_data (Z.to_nat mid)) as [rec Hrec]; [lia|].
    assert (is_Some (rec !! search_column)) as [v Hv].
    { unfold has_column in Hcol. rewrite Forall_forall in Hcol.
      apply Hcol. by eapply list_elem_of_lookup_2. }
    assert (0 ≤ mid) as Hmid0 by lia.
    rewrite (run_bind_pure _ _ _ _ (getitem_list_ok _ _ _ _ Hmid0 Hrec)).
    rewrite (run_bind_pure _ _ _ _ (getitem_dict_ok _ _ _ _ Hv)).
    assert (m = 0 ∨ ∃ m', m = m' + 1 ∧ 0 ≤ m' ∧ 2 ^ m = 2 * 2 ^ m') as Hcases.
    { destruct (decide (m = 0)) as [|Hne]; [by left|]. right. exists (m - 1).
      split; [lia|]. split; [lia|].
      rewrite <-Z.pow_succ_r by lia. f_equal. lia. }
    destruct (String.eqb (py_str v) (py_str target_value));
      [discriminate|destruct (String.ltb (py_str v) (py_str target_value))]; intros Hres.
    + destruct Hcases as [->|(m' & -> & Hm' & Hpow)].
      * pose proof (IH 0 (mid + 1) right_ (comparisons + 1) s c) as Hc.
        cbn in Hc. apply Hc in Hres; lia.
      * apply (IH m') in Hres; lia.
    + destruct Hcases as [->|(m' & -> & Hm' & Hpow)].
      * pose proof (IH 0 left_ (mid - 1) (comparisons + 1) s c) as Hc.
        cbn in Hc. apply Hc in Hres; lia.
      * apply (IH m') in Hres; lia.
  - intros [= <-]. destruct (decide (m = 0)) as [->|]; [lia|].
    pose proof (Z.pow_le_mono_r 2 1 m ltac:(lia) ltac:(lia)) as Hpow.
    change (2 ^ 1) with 2 in Hpow. lia.
Qed.

Lemma binary_search_miss_lower target_value search_column s c :
  has_column search_column (product_data s) →
  res (binary_search target_value search_column s) = Ok (None, c) →
  Z.log2 (Z.of_nat (length (product_data s)) + 1) ≤ c.
Proof.
  intros Hcol Hmiss.
  destruct (sorted_has search_column _ s Hcol) as (sorted_data & Hrun & Hperm & _).
  assert (length sorted_data = length (product_data s)) as Hlen by by rewrite Hperm.
  set (n := Z.of_nat (length (product_data s))) in *.
  assert (res (binary_loop sorted_data target_value search_column 0 (n - 1) 0 s)
          = Ok (None, c)) as Hloop.
  { revert Hmiss. unfold binary_search. rewrite (run_bind_pure _ _ s s) by reflexivity.
    erewrite (run_bind_pure (try_except _ _)); cycle 1.
    { apply run_try_ok. by rewrite (run_bind_pure _ _ _ _ Hrun). }
    cbn beta iota. erewrite run_bind_ok by reflexivity.
    rewrite Hlen. fold n. done. }
  pose proof (Z.log2_nonneg (n + 1)) as Hlog.
  pose proof (Z.log2_spec (n + 1) ltac:(lia)) as [Hpow _].
  eapply (binary_loop_miss_lower sorted_data target_value search_column
            ltac:(unfold has_column; by rewrite Hperm)
            (length sorted_data) (Z.log2 (n + 1)) 0 (n - 1) 0 s c) in Hloop; lia.
Qed.

(** X2.  With the column in every record, [binary_search] returns not-found
    exactly when no record has the target's string form in the column, and a
    miss on N records costs between floor(log2(N+1)) and ceil(log2(N+1))
    comparisons. *)
Theorem binary_search_miss target_value search_column s :
  has_column search_column (product_data s) →
  ((∃ c, res (binary_search target_value search_column s) = Ok (None, c))
   ↔ Forall (fun x => ¬ matches target_value search_column x) (product_data s))
  ∧ ∀ c, res (binary_search target_value search_column s) = Ok (None, c) →
         Z.log2 (Z.of_nat (length (product_data s)) + 1) ≤ c
         ≤ Z.log2_up (Z.of_nat (length (product_data s)) + 1).
Proof.
  intros Hcol.
  destruct (binary_search_has target_value _ _ Hcol) as ([ox c'] & Hb & Hc & Hres).
  cbn [fst snd] in *. split.
  - rewrite Hb. cbn [res]. split.
    + intros [c [= -> ->]]. by apply Forall_forall.
    + intros Hnone. destruct ox as [x|]; [|by eexists].
      destruct Hres as (Hin & Hx & _). rewrite Forall_forall in Hnone.
      by destruct (Hnone x Hin).
  - intros c Hmiss. split; [by eapply binary_search_miss_lower|].
    rewrite Hb in Hmiss. injection Hmiss as _ <-. lia.
Qed.

Lemma sequential_search_frame target_value search_column s :
  self_after (sequential_search target_value search_column s) = s.
Proof.
  rewrite sequential_search_unfold. cbn [self_after].
  generalize 0. induction (product_data s) as [|x data IH]; intros c; [reflexivity|].
  cbn [sequential_loop]. destruct (x !! search_column) as [v|] eqn:Hv.
  - rewrite (run_bind_pure _ _ _ _ (getitem_dict_ok _ _ _ _ Hv)).
    destruct (String.eqb _ _); [reflexivity|apply IH].
  - erewrite run_bind_raise; [reflexivity|]. unfold getitem_dict. by rewrite Hv.
Qed.

(** X3.  [sequential_search] looks no further than the first record that
    matches or lacks the column.  If that record matches, it is returned with
    its position plus one, whatever follows it; if it lacks the column,
    [KeyError] is raised after the opening line alone.  Either way the
    analyzer is left as it was. *)
Theorem sequential_search_stops_early target_value search_column
    params connection pre x post :
  Forall (fun y => is_Some (y !! search_column)
                   ∧ ¬ matches target_value search_column y) pre →
  let s := Analyzer params connection (pre ++ x :: post) in
  (matches target_value search_column x →
   res (sequential_search target_value search_column s)
   = Ok (Some x, Z.of_nat (length pre) + 1))
  ∧ (x !! search_column = None →
     res (sequential_search target_value search_column s) = Raise (KeyError search_column)
     ∧ out (sequential_search target_value search_column s) = [SequentialSearching])
  ∧ self_after (sequential_search target_value search_column s) = s.
Proof.
  intros Hpre s. split; [|split].
  - intros Hx. rewrite sequential_search_unfold. cbn [product_data s].
    by rewrite sequential_loop_found.
  - intros Hx. rewrite sequential_search_unfold. cbn [product_data s].
    by rewrite sequential_loop_raises.
  - apply sequential_search_frame.
Qed.
End MoreSearch.

Lemma binary_search_miss_witness :
  ((∃ c, res (binary_search (Int 7) "customer_id" three_customers) = Ok (None, c))
   ↔ Forall (fun x => ¬ matches (Int 7) "customer_id" x) (product_data three_customers))
  ∧ ∀ c, res (binary_search (Int 7) "customer_id" three_customers) = Ok (None, c) →
         Z.log2 (Z.of_nat (length (product_data three_customers)) + 1) ≤ c
         ≤ Z.log2_up (Z.of_nat (length (product_data three_customers)) + 1).
Proof.
  apply (binary_search_miss (Int 7) "customer_id" three_customers).
  unfold has_column. by_evaluation.
Defined.

Lemma sequential_search_stops_early_witness :
  let s := Analyzer [] None ([ann] ++ bob :: [∅]) in
  (matches (Int 2) "customer_id" bob →
   res (sequential_search (Int 2) "customer_id" s) = Ok (Some bob, Z.of_nat (length [ann]) + 1))
  ∧ (bob !! "customer_id"%string = None →
     res (sequential_search (Int 2) "customer_id" s) = Raise (KeyError "customer_id")
     ∧ out (sequential_search (Int 2) "customer_id" s) = [SequentialSearching])
  ∧ self_after (sequential_search (Int 2) "customer_id" s) = s.
Proof.
  apply (sequential_search_stops_early (Int 2) "customer_id" [] None [ann] bob [∅]).
  by_evaluation.
Defined.

(** ** The working copy keeps equal keys in snapshot order *)

Section Stability.
Context {V : Type} `{PyStr V}.
Implicit Types (x : gmap string V) (data : list (gmap string V)) (s : analyzer V).

Lemma insert_by_key_filter {A} (k : string) (kx : string * A) l :
  filter (fun d => d.1 = k) (insert_by_key kx l)
  = filter (fun d => d.1 = k) (kx :: l).
Proof.
  induction l as [|ky l IH]; [done|]. cbn [insert_by_key].
  destruct (String.ltb ky.1 kx.1) eqn:E; [|done].
  rewrite filter_cons, IH, !filter_cons.
  destruct (decide (ky.1 = k)) as [Hy|Hy], (decide (kx.1 = k)) as [Hx|Hx]; try done.
  rewrite Hy, Hx, ltb_irrefl in E. done.
Qed.

Lemma stable_sort_filter {A} (k : string) (l : list (string * A)) :
  filter (fun d => d.1 = k) (stable_sort l) = filter (fun d => d.1 = k) l.
Proof.
  induction l as [|kx l IH]; [done|]. unfold stable_sort in *. cbn [foldr].
  by rewrite insert_by_key_filter, !filter_cons, IH.
Qed.

Lemma undecorate_filter search_column (k : string) (ds : list (string * gmap string V)) :
  Forall (fun d => d.1 = str_at search_column d.2) ds →
  filter (fun x => str_at search_column x = k) ds.*2
  = (filter (fun d => d.1 = k) ds).*2.
Proof.
  induction 1 as [|d ds Hd _ IH]; [done|].
  rewrite fmap_cons, !filter_cons, IH, <-Hd. by destruct (decide (d.1 = k)).
Qed.

(** X4.  The working copy [sorted] hands to binary search is a rearrangement
    of the snapshot in ascending order of the column's string form, and the
    records that share a string form keep the order they have in the
    snapshot. *)
Theorem working_copy_is_stable search_column data s sorted_data :
  res (sorted data (sort_key search_column) s) = Ok sorted_data →
  sorted_data ≡ₚ data
  ∧ sorted_by search_column sorted_data
  ∧ ∀ k, filter (fun x => str_at search_column x = k) sorted_data
         = filter (fun x => str_at search_column x = k) data.
Proof.
  intros Hrun. pose proof (sorted_returns_has _ _ _ _ Hrun) as Hcol.
  destruct (sorted_has search_column data s Hcol) as (sd & Hsd & Hperm & Hsorted).
  assert (sorted_data = sd) as -> by (rewrite Hsd in Hrun; by injection Hrun).
  split; [done|]. split; [done|]. intros k.
  unfold sorted in Hsd. rewrite (run_bind_pure _ _ _ _ (decorate_has _ _ _ Hcol)) in Hsd.
  injection Hsd as <-.
  rewrite undecorate_filter, stable_sort_filter.
  - rewrite <-(undecorate_filter search_column), <-list_fmap_compose.
    + f_equal. clear. induction data as [|x data IH]; [done|]. cbn. by f_equal.
    + apply Forall_fmap, Forall_forall. done.
  - rewrite stable_sort_perm. apply Forall_fmap, Forall_forall. done.
Qed.
End Stability.

Lemma working_copy_is_stable_witness :
  [ann; cyd; bob] ≡ₚ product_data three_customers
  ∧ sorted_by "product_category" [ann; cyd; bob]
  ∧ ∀ k, filter (fun x => str_at "product_category" x = k) [ann; cyd; bob]
         = filter (fun x => str_at "product_category" x = k)
             (product_data three_customers).
Proof.
  apply (working_copy_is_stable "product_category" (product_data three_customers)
           three_customers [ann; cyd; bob]).
  by_evaluation.
Defined.

(** ** More on the lookups and the reporter *)

Section MoreReporter.
Context {V : Type} `{PyStr V}.
Implicit Types (s : analyzer V) (search_value : V) (column : string).

(** What the reporter prints, line by line, when the lookup and the two
    searches have returned. *)
Lemma reporter_out search_value column s odb db_result db_time ob rb os rs :
  database_search (bool_decide (column ∈ indexed_columns)) search_value column s
  = Run odb s (Ok (db_result, db_time)) →
  binary_search search_value column s = Run ob s (Ok rb) →
  sequential_search search_value column s = Run os s (Ok rs) →
  perform_search_comparison search_value column s
  = Run ([SearchingFor column search_value; Rule 60;
          ColumnIndexed column (bool_decide (column ∈ indexed_columns))]
         ++ odb ++ ob ++ os
         ++ [PerformanceComparison; DbTime db_time; BinaryComparisons rb.2;
             SequentialComparisons rs.2]
         ++ (if (0 <? rs.2) && (0 <? rb.2)
             then [Speedup (Qdiv (inject_Z rs.2) (inject_Z rb.2))] else [])
         ++ match db_result with
            | Some (item :: items) =>
                FoundRecord :: ((fun kv => Field kv.1 kv.2) <$> (item :: items))
            | _ => [NoRecordFound column search_value]
            end) s (Ok tt).
Proof.
  intros Hdb Hb Hs. unfold perform_search_comparison.
  assert ((if bool_decide (column ∈ indexed_columns)
           then database_search_indexed search_value column
           else database_search_unindexed search_value column) s
          = Run odb s (Ok (db_result, db_time))) as Hdb'.
  { rewrite <-Hdb. unfold database_search_indexed, database_search_unindexed.
    by destruct (bool_decide _). }
  destruct rb as [binary_result binary_comparisons].
  destruct rs as [sequential_result sequential_comparisons].
  cbv [mbind M_bind bind print mret M_ret ret].
  rewrite Hdb'. cbn [fst snd]. rewrite Hb. cbn [fst snd]. rewrite Hs. cbn [fst snd].
  destruct ((0 <? sequential_comparisons) && (0 <? binary_comparisons));
    destruct db_result as [[|item items]|];
    rewrite ?print_fields_run; cbn [fst snd]; rewrite <-?app_assoc; reflexivity.
Qed.

(** X6.  When every record of the snapshot has the column (an empty snapshot
    included), the reporter completes whatever the store does, and leaves the
    analyzer as it was. *)
Theorem reporter_completes search_value column s :
  has_column column (product_data s) →
  perform_search_comparison search_value column s
  = Run (out (perform_search_comparison search_value column s)) s (Ok tt).
Proof.
  intros Hcol.
  destruct (binary_search_has search_value _ _ Hcol) as (rb & Hb & _).
  destruct (sequential_search_has search_value _ _ Hcol) as (os & rs & Hs & _).
  destruct (database_search_run (bool_decide (column ∈ indexed_columns))
              search_value column s) as (odb & [db_result db_time] & Hdb & _).
  by rewrite (reporter_out _ _ _ _ _ _ _ _ _ _ Hdb Hb Hs).
Qed.

(** What the reporter prints when sequential search raises. *)
Lemma reporter_out_raised search_value column s odb db ob rb os e :
  database_search (bool_decide (column ∈ indexed_columns)) search_value column s
  = Run odb s (Ok db) →
  binary_search search_value column s = Run ob s (Ok rb) →
  sequential_search search_value column s = Run os s (Raise e) →
  perform_search_comparison search_value column s
  = Run ([SearchingFor column search_value; Rule 60;
          ColumnIndexed column (bool_decide (column ∈ indexed_columns))]
         ++ odb ++ ob ++ os) s (Raise e).
Proof.
  intros Hdb Hb Hs. unfold perform_search_comparison.
  assert ((if bool_decide (column ∈ indexed_columns)
           then database_search_indexed search_value column
           else database_search_unindexed search_value column) s
          = Run odb s (Ok db)) as Hdb'.
  { rewrite <-Hdb. unfold database_search_indexed, database_search_unindexed.
    by destruct (bool_decide _). }
  destruct db as [db_result db_time], rb as [binary_result binary_comparisons].
  cbv [mbind M_bind bind print mret M_ret ret].
  rewrite Hdb'. cbn [fst snd]. rewrite Hb. cbn [fst snd]. rewrite Hs.
  rewrite <-?app_assoc. reflexivity.
Qed.

Lemma binary_search_lines search_value column s :
  ∃ ob rb,
    binary_search search_value column s = Run ob s (Ok rb) ∧ FoundRecord ∉ ob.
Proof.
  destruct (decide (has_column column (product_data s))) as [Hcol|Hno].
  - destruct (binary_search_has search_value _ _ Hcol) as (rb & Hb & _).
    eexists _, rb. split; [exact Hb|]. unfold binary_verdict. destruct rb.1; absent_line.
  - eexists _, _. split; [by apply binary_search_missing|]. absent_line.
Qed.

Lemma sequential_loop_lines data search_value column comparisons s :
  ∃ o r,
    sequential_loop data search_value column comparisons s = Run o s r
    ∧ FoundRecord ∉ o.
Proof.
  revert comparisons. induction data as [|x data IH]; intros comparisons.
  - eexists _, _. split; [reflexivity|]. absent_line.
  - cbn [sequential_loop]. destruct (x !! column) as [v|] eqn:Hv.
    + rewrite (run_bind_pure _ _ _ _ (getitem_dict_ok _ _ _ _ Hv)).
      destruct (String.eqb _ _); [|apply IH].
      eexists _, _. split; [reflexivity|]. absent_line.
    + eexists _, _. split.
      * erewrite run_bind_raise; [reflexivity|]. unfold getitem_dict. by rewrite Hv.
      * absent_line.
Qed.

Lemma sequential_search_lines search_value column s :
  ∃ os r,
    sequential_search search_value column s = Run os s r ∧ FoundRecord ∉ os.
Proof.
  rewrite sequential_search_unfold.
  destruct (sequential_loop_lines (product_data s) search_value column 0 s)
    as (o & r & -> & Ho).
  eexists _, _. split; [reflexivity|]. cbn [out].
  apply not_elem_of_cons. split; [done|exact Ho].
Qed.

(** X7.  The record the reporter shows is the store's, not the snapshot's.
    Without a connection it never prints a found record; and whenever
    sequential search returns (binary search always does), it completes
    with a query time of 0 and the "no record found" notice, whatever the
    two in-memory searches returned. *)
Theorem reporter_shows_store_result_only search_value column s :
  connection s = None →
  (FoundRecord ∉ out (perform_search_comparison search_value column s))
  ∧ (∀ rs,
       res (sequential_search search_value column s) = Ok rs →
       res (perform_search_comparison search_value column s) = Ok tt
       ∧ NoRecordFound column search_value
         ∈ out (perform_search_comparison search_value column s)
       ∧ DbTime 0 ∈ out (perform_search_comparison search_value column s)).
Proof.
  intros Hconn.
  destruct (binary_search_lines search_value column s) as (ob & rb & Hb & Hob).
  destruct (sequential_search_lines search_value column s) as (os & r & Hs & Hos).
  assert (database_search (bool_decide (column ∈ indexed_columns)) search_value column s
          = Run [NoConnection] s (Ok (None, 0%Q))) as Hdb.
  { unfold database_search. rewrite (run_bind_pure _ _ s s) by reflexivity.
    by rewrite Hconn. }
  destruct r as [rs|e].
  - rewrite (reporter_out _ _ _ _ _ _ _ _ _ _ Hdb Hb Hs), Hs. cbn [out res]. split.
    + rewrite !not_elem_of_app. repeat split; try absent_line; [done|done|].
      destruct (_ && _); absent_line.
    + intros _ _. split; [done|]. split.
      * rewrite !elem_of_app. do 6 right. apply list_elem_of_here.
      * rewrite !elem_of_app. do 4 right. left.
        apply list_elem_of_further, list_elem_of_here.
  - rewrite (reporter_out_raised _ _ _ _ _ _ _ _ _ Hdb Hb Hs), Hs. cbn [out res]. split.
    + rewrite !not_elem_of_app. repeat split; try absent_line; done.
    + intros rs [=].
Qed.

(** X8.  With the column in every record, the reporter prints a speedup
    line exactly when the snapshot is not empty. *)
Theorem speedup_printed_iff_nonempty search_value column s :
  has_column column (product_data s) →
  (∃ q, Speedup q ∈ out (perform_search_comparison search_value column s))
  ↔ product_data s ≠ [].
Proof.
  intros Hcol.
  destruct (binary_search_has search_value _ _ Hcol) as (rb & Hb & Hcb & Hrb).
  destruct (sequential_search_has search_value _ _ Hcol) as (os & rs & Hs & Hos & Hcs).
  destruct (database_search_run (bool_decide (column ∈ indexed_columns))
              search_value column s) as (odb & [db_result db_time] & Hdb & Hodb).
  rewrite (reporter_out _ _ _ _ _ _ _ _ _ _ Hdb Hb Hs). cbn [out].
  assert (product_data s ≠ [] ↔ 0 < rs.2 ∧ 0 < rb.2) as ->.
  { split.
    - intros Hne. assert (0 < Z.of_nat (length (product_data s))) as Hlen.
      { destruct (product_data s); [done|cbn; lia]. }
      split.
      + destruct Hcs as [Hrs|(pre & x & post & _ & _ & Hrs)]; lia.
      + destruct rb as [[x|] cb]; cbn [fst snd] in *; [lia|].
        assert (res (binary_search search_value column s) = Ok (None, cb)) as Hmiss
          by by rewrite Hb.
        apply binary_search_miss_lower in Hmiss; [|done].
        pose proof (Z.log2_le_mono 2 (Z.of_nat (length (product_data s)) + 1)
                      ltac:(lia)) as Hmono.
        change (Z.log2 2) with 1 in Hmono. lia.
    - intros [Hrs _] Hnil. rewrite Hnil in Hcs, Hcb. cbn in Hcs.
      destruct Hcs as [Hrs'|(pre & x & post & Hdata & _)]; [lia|].
      by destruct pre. }
  split.
  - intros [q Hq]. revert Hq. rewrite !elem_of_app.
    intros [Hq|[Hq|[Hq|[Hq|[Hq|[Hq|Hq]]]]]].
    + revert Hq. absent_line.
    + by destruct (Hodb q).
    + revert Hq. unfold binary_verdict. destruct rb.1; absent_line.
    + by destruct (Hos q).
    + revert Hq. absent_line.
    + destruct (Z.ltb_spec 0 rs.2), (Z.ltb_spec 0 rb.2); cbn in Hq;
        try by apply elem_of_nil in Hq. done.
    + revert Hq. destruct db_result as [[|item items]|]; try absent_line.
      intros [Hq|Hq]%elem_of_cons; [done|].
      apply list_elem_of_fmap in Hq as (kv & Hq & _). done.
  - intros [Hrs Hrb']. eexists. rewrite !elem_of_app. do 5 right. left.
    destruct (Z.ltb_spec 0 rs.2), (Z.ltb_spec 0 rb.2); try lia.
    apply list_elem_of_here.
Qed.
End MoreReporter.

Lemma reporter_completes_witness :
  perform_search_comparison (Int 2) "customer_id" connected_customers
  = Run (out (perform_search_comparison (Int 2) "customer_id" connected_customers))
        connected_customers (Ok tt).
Proof.
  apply (reporter_completes (Int 2) "customer_id" connected_customers).
  unfold has_column. by_evaluation.
Defined.

Lemma reporter_shows_store_result_only_witness :
  (FoundRecord ∉ out (perform_search_comparison (Int 2) "customer_id" three_customers))
  ∧ (∀ rs,
       res (sequential_search (Int 2) "customer_id" three_customers) = Ok rs →
       res (perform_search_comparison (Int 2) "customer_id" three_customers) = Ok tt
       ∧ NoRecordFound "customer_id" (Int 2)
         ∈ out (perform_search_comparison (Int 2) "customer_id" three_customers)
       ∧ DbTime 0
         ∈ out (perform_search_comparison (Int 2) "customer_id" three_customers)).
Proof.
  apply (reporter_shows_store_result_only (Int 2) "customer_id" three_customers).
  reflexivity.
Defined.

(** On that sample sequential search does return, with the record the
    reporter then does not show. *)
Example snapshot_record_not_shown :
  res (sequential_search (Int 2) "customer_id" three_customers) = Ok (Some bob, 2).
Proof. by_evaluation. Qed.

Lemma speedup_printed_iff_nonempty_witness :
  (∃ q, Speedup q ∈ out (perform_search_comparison (Int 2) "customer_id" three_customers))
  ↔ product_data three_customers ≠ [].
Proof.
  apply (speedup_printed_iff_nonempty (Int 2) "customer_id" three_customers).
  unfold has_column. by_evaluation.
Defined.

(** ** Loading the snapshot *)

Section Loading.
Context {V : Type} `{PyStr V}.
Implicit Types (s : analyzer V) (pairs : list (string * V)) (row : list V).
Implicit Types (columns : list string).

Lemma dict_snoc pairs k (v : V) : dict (pairs ++ [(k, v)]) = <[k:=v]> (dict pairs).
Proof. unfold dict. by rewrite foldl_app. Qed.

Lemma dict_lookup_is_Some pairs k : is_Some (dict pairs !! k) ↔ k ∈ pairs.*1.
Proof.
  induction pairs as [|[k' v'] pairs IH] using rev_ind.
  - cbn. rewrite lookup_empty, elem_of_nil. split; [by intros [? ?]|done].
  - rewrite dict_snoc, fmap_app, elem_of_app, <-IH. cbn.
    rewrite list_elem_of_singleton. destruct (decide (k' = k)) as [->|Hne].
    + rewrite lookup_insert_eq. split; [by right|by eexists].
    + rewrite lookup_insert_ne by done. split; [by left|]. by intros [?|?].
Qed.

Lemma dict_lookup_Some pairs k (v : V) :
  NoDup pairs.*1 → dict pairs !! k = Some v ↔ (k, v) ∈ pairs.
Proof.
  induction pairs as [|[k' v'] pairs IH] using rev_ind; intros Hnodup.
  - cbn. rewrite lookup_empty, elem_of_nil. split; [done|done].
  - rewrite fmap_app in Hnodup. apply NoDup_app in Hnodup as (Hnodup & Hfresh & _).
    rewrite dict_snoc, elem_of_app, list_elem_of_singleton.
    destruct (decide (k' = k)) as [->|Hne].
    + rewrite lookup_insert_eq. split.
      * intros [= ->]. by right.
      * intros [Hin|[= ->]]; [|done]. destruct (Hfresh k).
        -- by apply (list_elem_of_fmap_2 fst _ (k, v)).
        -- cbn. apply list_elem_of_here.
    + rewrite lookup_insert_ne by done. rewrite IH by done.
      split; [by left|]. intros [?|[= ? ?]]; [done|congruence].
Qed.

Lemma fst_zip_take columns row : (zip columns row).*1 = take (length row) columns.
Proof.
  revert row. induction columns as [|c columns IH]; intros [|v row]; cbn; try done.
  by rewrite IH.
Qed.

(** A record built from a row holds each cell under the name of its column. *)
Lemma dict_zip_lookup columns row (j : nat) col :
  NoDup columns → columns !! j = Some col →
  dict (zip columns row) !! col = row !! j.
Proof.
  intros Hnodup Hj.
  assert (NoDup (zip columns row).*1) as Hnd.
  { rewrite fst_zip_take. eapply sublist_NoDup; [done|apply sublist_take]. }
  destruct (row !! j) as [v|] eqn:Hv.
  - apply dict_lookup_Some; [done|]. apply list_elem_of_lookup. exists j.
    by apply lookup_zip_Some.
  - destruct (dict (zip columns row) !! col) as [v|] eqn:Hd; [|done].
    apply dict_lookup_Some in Hd; [|done].
    apply list_elem_of_lookup in Hd as [i [Hi Hv']%lookup_zip_Some].
    rewrite (NoDup_lookup _ _ _ _ Hnodup Hi Hj) in Hv'. congruence.
Qed.

Lemma dict_zip_has columns row col :
  (length columns ≤ length row)%nat → col ∈ columns →
  is_Some (dict (zip columns row) !! col).
Proof.
  intros Hlen Hin. apply dict_lookup_is_Some. by rewrite fst_zip.
Qed.

Lemma dict_zip_other columns row k :
  k ∉ columns → dict (zip columns row) !! k = None.
Proof.
  intros Hk. apply eq_None_not_Some. rewrite dict_lookup_is_Some, fst_zip_take.
  intros Hin. apply Hk. eapply elem_of_sublist; [exact Hin|apply sublist_take].
Qed.

Lemma fetch_all_data_rows s c columns rows :
  connection s = Some c → select_all c = FetchRows columns rows →
  fetch_all_data s
  = Run [Fetched (length rows)]
        (Analyzer (connection_params s) (connection s)
           ((fun row => dict (zip columns row)) <$> rows))
        (Ok ((fun row => dict (zip columns row)) <$> rows)).
Proof.
  intros Hc Hrows. unfold fetch_all_data. rewrite (run_bind_pure _ _ s s) by reflexivity.
  rewrite Hc, Hrows. cbv [mbind M_bind bind put print mret M_ret ret].
  by rewrite length_fmap.
Qed.

(** X9.  When the store answers, [fetch_all_data] returns the new snapshot
    and stores the same list in the analyzer: one record per row, in row
    order, each holding the row's cells under the names of their columns
    and nothing under any other name. *)
Theorem fetch_all_data_loads_rows s c columns rows :
  connection s = Some c →
  select_all c = FetchRows columns rows →
  NoDup columns →
  ∃ data,
    res (fetch_all_data s) = Ok data
    ∧ product_data (self_after (fetch_all_data s)) = data
    ∧ connection (self_after (fetch_all_data s)) = Some c
    ∧ length data = length rows
    ∧ ∀ (i : nat) row, rows !! i = Some row →
        ∃ record,
          data !! i = Some record
          ∧ (∀ (j : nat) col, columns !! j = Some col → record !! col = row !! j)
          ∧ (∀ k, k ∉ columns → record !! k = None).
Proof.
  intros Hc Hrows Hnodup. rewrite (fetch_all_data_rows _ _ _ _ Hc Hrows).
  eexists. split; [reflexivity|]. split; [reflexivity|]. split; [done|].
  split; [by rewrite length_fmap|].
  intros i row Hi. exists (dict (zip columns row)).
  split; [by rewrite list_lookup_fmap, Hi|]. split.
  - intros j col Hj. by apply dict_zip_lookup.
  - intros k Hk. by apply dict_zip_other.
Qed.

Lemma agree_when_has_column target_value search_column s :
  has_column search_column (product_data s) →
  agree (res (binary_search target_value search_column s))
        (res (sequential_search target_value search_column s)).
Proof.
  intros Hcol.
  destruct (binary_search_has target_value _ _ Hcol) as ([ob cb] & Hb & _ & Hres).
  rewrite sequential_search_unfold, Hb. cbn [res fst snd] in *.
  destruct (first_match target_value _ _ Hcol)
    as [Hnone|(pre & y & post & Hdata & Hpre & Hy)].
  - rewrite sequential_loop_not_found by done. cbn [res]. destruct ob as [x|].
    + destruct Hres as (Hin & Hx & _). rewrite Forall_forall in Hnone.
      by destruct (Hnone _ Hin).
    + right; split; eexists; reflexivity.
  - rewrite Hdata, sequential_loop_found by done. cbn [res]. destruct ob as [x|].
    + left; split; eexists _, _; reflexivity.
    + destruct (Hres y); [|done]. rewrite Hdata. apply elem_of_app. right.
      apply list_elem_of_here.
Qed.

(** X11.  On a snapshot just loaded from rows that have a cell for every
    column, a search by any of the columns cannot fail: both searches return
    and agree on found or not-found, and the reporter completes. *)
Theorem loaded_snapshot_is_searchable s c columns rows target_value search_column :
  connection s = Some c →
  select_all c = FetchRows columns rows →
  Forall (fun row => (length columns ≤ length row)%nat) rows →
  search_column ∈ columns →
  let s' := self_after (fetch_all_data s) in
  has_column search_column (product_data s')
  ∧ agree (res (binary_search target_value search_column s'))
          (res (sequential_search target_value search_column s'))
  ∧ res (perform_search_comparison target_value search_column s') = Ok tt.
Proof.
  intros Hc Hrows Hwide Hin s'.
  assert (has_column search_column (product_data s')) as Hcol.
  { unfold s'. rewrite (fetch_all_data_rows _ _ _ _ Hc Hrows). cbn.
    unfold has_column. apply Forall_fmap. eapply Forall_impl; [exact Hwide|].
    intros row Hlen. by apply dict_zip_has. }
  split; [done|]. split; [by apply agree_when_has_column|].
  destruct (binary_search_has target_value _ _ Hcol) as (rb & Hb & _).
  destruct (sequential_search_has target_value _ _ Hcol) as (os & rs & Hs & _).
  destruct (database_search_run (bool_decide (search_column ∈ indexed_columns))
              target_value search_column s') as (odb & [db_result db_time] & Hdb & _).
  by rewrite (reporter_out _ _ _ _ _ _ _ _ _ _ Hdb Hb Hs).
Qed.
End Loading.

Lemma fetch_all_data_loads_rows_witness :
  ∃ data,
    res (fetch_all_data just_connected) = Ok data
    ∧ product_data (self_after (fetch_all_data just_connected)) = data
    ∧ connection (self_after (fetch_all_data just_connected)) = Some stocked_store
    ∧ length data = length [ann_row; bob_row]
    ∧ ∀ (i : nat) row, [ann_row; bob_row] !! i = Some row →
        ∃ record,
          data !! i = Some record
          ∧ (∀ (j : nat) col, table_columns !! j = Some col → record !! col = row !! j)
          ∧ (∀ k, k ∉ table_columns → record !! k = None).
Proof.
  apply (fetch_all_data_loads_rows just_connected stocked_store table_columns
           [ann_row; bob_row]).
  - reflexivity.
  - reflexivity.
  - by_evaluation.
Defined.

Lemma loaded_snapshot_is_searchable_witness :
  let s' := self_after (fetch_all_data just_connected) in
  has_column "amount" (product_data s')
  ∧ agree (res (binary_search (Text "8.00") "amount" s'))
          (res (sequential_search (Text "8.00") "amount" s'))
  ∧ res (perform_search_comparison (Text "8.00") "amount" s') = Ok tt.
Proof.
  apply (loaded_snapshot_is_searchable just_connected stocked_store table_columns
           [ann_row; bob_row] (Text "8.00") "amount").
  - reflexivity.
  - reflexivity.
  - by_evaluation.
  - by_evaluation.
Defined.

(** ** Start-up, continued *)

Section StartUp.
Context {V : Type} `{PyStr V}.
Implicit Types (s : analyzer V) (env : environment V).

Lemma init_connected env s o params c :
  load_db_config env s = Run o s (Ok params) →
  psycopg2_connect env params = inr c →
  init env s = Run (o ++ [Connected]) (Analyzer params (Some c) []) (Ok tt).
Proof.
  intros Hconfig Hc. unfold init, connect_to_database.
  cbv [mbind M_bind bind print put get try_except raise].
  rewrite Hconfig. cbn [connection_params]. rewrite Hc. cbn [app]. reflexivity.
Qed.

Lemma init_refused env s o params e :
  load_db_config env s = Run o s (Ok params) →
  psycopg2_connect env params = inl e →
  init env s = Run (o ++ [ConnectError e; TryingCsv]) (Analyzer params None [])
                   (Raise (AttributeError "load_from_csv")).
Proof.
  intros Hconfig Hc. unfold init, connect_to_database.
  cbv [mbind M_bind bind print put get try_except raise].
  rewrite Hconfig. cbn [connection_params]. rewrite Hc. cbn [app]. reflexivity.
Qed.

(** X12.  [main] reaches the interactive session only with a connection and a
    non-empty snapshot.  Otherwise it ends the same way whatever the session
    would have done: with the uncaught [AttributeError] of the missing
    fallback, or, after the "no data" line, with a normal return. *)
Theorem main_enters_session_on_data_only env s0 :
  (∃ pre s1 r,
     (∀ session, main env session s0 = Run pre s1 r)
     ∧ (r = Raise (AttributeError "load_from_csv")
        ∨ r = Ok tt ∧ last pre = Some NoDataCannotProceed))
  ∨ (∃ pre s1,
       product_data s1 ≠ [] ∧ is_Some (connection s1)
       ∧ ∀ session,
           main env session s0
           = Run (pre ++ out (session s1)) (self_after (session s1)) (res (session s1))).
Proof.
  destruct (load_db_config_run env s0) as (o & params & Hconfig & _).
  set (demo := if env_file_exists env then [] else [DemoMode] : list (line V)).
  assert (∀ A (k : M (analyzer V) (line V) A),
            (print Banner;; (if env_file_exists env then mret tt else print DemoMode);; k) s0
            = Run (Banner :: demo ++ out (k s0)) (self_after (k s0)) (res (k s0))) as Hhead.
  { intros A k. cbv [mbind M_bind bind print mret M_ret ret]. unfold demo.
    destruct (env_file_exists env), (k s0); reflexivity. }
  destruct (psycopg2_connect env params) as [e|c] eqn:Hconn.
  { left. eexists _, _, _. split; [|by left]. intros session. unfold main.
    rewrite Hhead. erewrite run_bind_raise by (by eapply init_refused). reflexivity. }
  pose proof (init_connected _ _ _ _ _ Hconfig Hconn) as Hinit.
  destruct (select_all c) as [e|columns rows] eqn:Hrows.
  { left. eexists (Banner :: demo ++ (o ++ [Connected]) ++ [FetchError e]
                     ++ [NoDataCannotProceed]), _, _.
    split; [|right; split; [reflexivity|]].
    - intros session. unfold main. rewrite Hhead.
      erewrite run_bind_ok by exact Hinit. cbn [out self_after res].
      assert (fetch_all_data (Analyzer params (Some c) [])
              = Run [FetchError e] (Analyzer params (Some c) []) (Ok [])) as Hfetch.
      { unfold fetch_all_data.
        rewrite (run_bind_pure _ _ (Analyzer params (Some c) [])
                   (Analyzer params (Some c) [])) by reflexivity.
        cbn [connection]. by rewrite Hrows. }
      erewrite run_bind_ok by exact Hfetch. reflexivity.
    - rewrite !app_comm_cons, !app_assoc. apply last_snoc. }
  pose proof (fetch_all_data_rows (Analyzer params (Some c) []) c columns rows
                eq_refl Hrows) as Hfetch.
  cbn [connection_params connection] in Hfetch.
  destruct rows as [|row rows]; cbn [length fmap list_fmap] in Hfetch.
  { left. eexists (Banner :: demo ++ (o ++ [Connected]) ++ [Fetched 0]
                     ++ [NoDataCannotProceed]), _, _.
    split; [|right; split; [reflexivity|]].
    - intros session. unfold main. rewrite Hhead.
      erewrite run_bind_ok by exact Hinit. cbn [out self_after res].
      erewrite run_bind_ok by exact Hfetch. reflexivity.
    - rewrite !app_comm_cons, !app_assoc. apply last_snoc. }
  right. exists (Banner :: demo ++ (o ++ [Connected]) ++ [Fetched (S (length rows))]).
  exists (Analyzer params (Some c)
            (dict (zip columns row) :: ((fun row => dict (zip columns row)) <$> rows))).
  split; [|split]; cycle 2.
  - intros session. unfold main. rewrite Hhead.
    erewrite run_bind_ok by exact Hinit. cbn [out self_after res].
    erewrite run_bind_ok by exact Hfetch. cbn [out self_after res app].
    rewrite <-!app_assoc. reflexivity.
  - done.
  - by eexists.
Qed.
End StartUp.

(** ** The values of a column *)

Section ListingLemmas.
Context {V : Type} `{PyStr V}.
Implicit Types (x : gmap string V) (data : list (gmap string V)) (s : analyzer V).

Lemma column_strings_has column data s :
  has_column column data →
  column_strings column data s = Run [] s (Ok (str_at column <$> data)).
Proof.
  induction 1 as [|x data [v Hv] _ IH]; [reflexivity|]. cbn [column_strings].
  rewrite (run_bind_pure _ _ _ _ (getitem_dict_ok _ _ _ _ Hv)).
  rewrite (run_bind_pure _ _ _ _ IH), fmap_cons.
  assert (str_at column x = py_str v) as -> by (unfold str_at; by rewrite Hv).
  reflexivity.
Qed.

Lemma column_strings_missing column data s :
  ¬ has_column column data →
  column_strings column data s = Run [] s (Raise (KeyError column)).
Proof.
  unfold has_column. induction data as [|x data IH]; intros Hno.
  - destruct Hno. constructor.
  - cbn [column_strings]. destruct (x !! column) as [v|] eqn:Hx.
    + rewrite (run_bind_pure _ _ _ _ (getitem_dict_ok _ _ _ _ Hx)).
      erewrite run_bind_raise; [reflexivity|]. apply IH.
      intros Hall. apply Hno. constructor; eauto.
    + erewrite run_bind_raise; [reflexivity|]. unfold getitem_dict. by rewrite Hx.
Qed.

Lemma decorate_mret (l : list string) s :
  decorate (S := analyzer V) (L := line V) mret l s
  = Run [] s (Ok ((fun v => (v, v)) <$> l)).
Proof.
  induction l as [|v l IH]; [reflexivity|]. cbn [decorate].
  rewrite (run_bind_pure (mret v) _ s v) by reflexivity.
  by rewrite (run_bind_pure _ _ _ _ IH).
Qed.

Lemma sorted_strings (l : list string) s :
  ∃ values,
    sorted (S := analyzer V) (L := line V) l mret s = Run [] s (Ok values)
    ∧ values ≡ₚ l
    ∧ StronglySorted str_le values.
Proof.
  eexists. split; [|split].
  - unfold sorted. by rewrite (run_bind_pure _ _ _ _ (decorate_mret l s)).
  - rewrite stable_sort_perm, <-list_fmap_compose.
    clear. induction l as [|v l IH]; [done|]. cbn. by f_equiv.
  - assert (Forall (fun d : string * string => d.1 = d.2)
              (stable_sort ((fun v => (v, v)) <$> l))) as Hkeys.
    { rewrite stable_sort_perm. apply Forall_fmap, Forall_forall. done. }
    pose proof (stable_sort_sorted ((fun v : string => (v, v)) <$> l)) as Hsorted.
    induction Hsorted as [|d ds _ IH Hd]; [constructor|].
    apply Forall_cons in Hkeys as [Hk Hkeys]. cbn. constructor; [by apply IH|].
    apply Forall_fmap. rewrite Forall_forall in Hd, Hkeys. apply Forall_forall.
    intros d' Hd'. cbn. rewrite <-Hk, <-(Hkeys _ Hd'). by apply Hd.
Qed.

Lemma sorted_distinct_strict (l : list string) :
  StronglySorted str_le l → NoDup l →
  StronglySorted (fun a b => String.ltb a b = true) l.
Proof.
  induction 1 as [|a l _ IH Ha]; intros Hnodup; [constructor|].
  apply NoDup_cons in Hnodup as [Hfresh Hnodup]. constructor; [by apply IH|].
  rewrite Forall_forall in Ha. apply Forall_forall. intros b Hb.
  apply ltb_total; [|by apply Ha].
  apply String.eqb_neq. intros ->. done.
Qed.

Lemma get_unique_values_has column s :
  has_column column (product_data s) →
  ∃ values,
    get_unique_values column s = Run [] s (Ok values)
    ∧ StronglySorted str_le values
    ∧ NoDup values
    ∧ ∀ v, v ∈ values ↔ ∃ x, x ∈ product_data s ∧ str_at column x = v.
Proof.
  intros Hcol. unfold get_unique_values.
  rewrite (run_bind_pure _ _ s s) by reflexivity.
  destruct (product_data s) as [|x0 data0] eqn:Hdata.
  { exists []. split; [reflexivity|]. split; [constructor|]. split; [constructor|].
    intros v. rewrite elem_of_nil. split; [done|]. by intros (x & ?%elem_of_nil & _). }
  rewrite <-Hdata in *. clear Hdata x0 data0.
  rewrite (run_bind_pure _ _ _ _ (column_strings_has _ _ _ Hcol)).
  destruct (sorted_strings
              (elements (list_to_set (str_at column <$> product_data s) : gset string)) s)
    as (values & Hrun & Hperm & Hsorted).
  exists values. split; [exact Hrun|]. split; [done|]. split.
  - rewrite Hperm. apply NoDup_elements.
  - intros v. rewrite Hperm, elem_of_elements, elem_of_list_to_set, list_elem_of_fmap.
    split; [intros (x & -> & Hx); by exists x|intros (x & Hx & <-); by exists x].
Qed.

(** X13.  With the column in every record, [get_unique_values] returns the
    string forms found in the column, each once, in strictly ascending
    order, and leaves the analyzer as it was. *)
Theorem get_unique_values_lists_column column s :
  has_column column (product_data s) →
  ∃ values,
    get_unique_values column s = Run [] s (Ok values)
    ∧ StronglySorted (fun a b => String.ltb a b = true) values
    ∧ ∀ v, v ∈ values ↔ ∃ x, x ∈ product_data s ∧ str_at column x = v.
Proof.
  intros Hcol.
  destruct (get_unique_values_has column s Hcol) as (values & Hrun & Hsorted & Hnodup & Hin).
  exists values. split; [done|]. split; [|done]. by apply sorted_distinct_strict.
Qed.

Lemma get_unique_values_missing column s :
  product_data s ≠ [] → ¬ has_column column (product_data s) →
  get_unique_values column s = Run [] s (Raise (KeyError column)).
Proof.
  intros Hne Hno. unfold get_unique_values. rewrite (run_bind_pure _ _ s s) by reflexivity.
  destruct (product_data s) as [|x0 data0] eqn:Hdata; [done|].
  rewrite <-Hdata in *. erewrite run_bind_raise; [reflexivity|].
  by apply column_strings_missing.
Qed.

(** X14.  On an empty snapshot [get_unique_values] returns the empty list
    for any column at all; on a non-empty one a single record without the
    column makes it raise [KeyError]. *)
Theorem get_unique_values_edges column s :
  (product_data s = [] → get_unique_values column s = Run [] s (Ok []))
  ∧ (product_data s ≠ [] → ¬ has_column column (product_data s) →
     get_unique_values column s = Run [] s (Raise (KeyError column))).
Proof.
  unfold get_unique_values. rewrite (run_bind_pure _ _ s s) by reflexivity. split.
  - intros ->. reflexivity.
  - intros Hne Hno. destruct (product_data s) as [|x0 data0] eqn:Hdata; [done|].
    rewrite <-Hdata in *. erewrite run_bind_raise; [reflexivity|].
    by apply column_strings_missing.
Qed.
End ListingLemmas.

Lemma get_unique_values_lists_column_witness :
  ∃ values,
    get_unique_values "product_category" three_customers
    = Run [] three_customers (Ok values)
    ∧ StronglySorted (fun a b => String.ltb a b = true) values
    ∧ ∀ v, v ∈ values
           ↔ ∃ x, x ∈ product_data three_customers ∧ str_at "product_category" x = v.
Proof.
  apply (get_unique_values_lists_column "product_category" three_customers).
  unfold has_column. by_evaluation.
Defined.

(** On the sample the two books are listed once. *)
Example unique_categories :
  res (get_unique_values "product_category" three_customers) = Ok ["Books"; "Toys"]%string.
Proof. by_evaluation. Qed.

(** ** The callers of the reporter *)

(** Split the membership of a line in a list of lines given piece by piece. *)
Ltac line_cases H :=
  repeat first
    [ apply elem_of_app in H as [H|H]
    | apply elem_of_cons in H as [H|H]
    | apply elem_of_nil in H; destruct H ].

Section ShellLemmas.
Context {V : Type} `{PyText V}.
Implicit Types (x : gmap string V) (s : analyzer V) (column : string).

Lemma lift_run {A} (m : M (analyzer V) (line V) A) s o s' r :
  m s = Run o s' r → lift m s = Run (Printed <$> o) s' r.
Proof. intros E. unfold lift. by rewrite E. Qed.

Lemma printed_elem (l : line V) (o : list (line V)) :
  Printed l ∈ Printed <$> o ↔ l ∈ o.
Proof.
  rewrite list_elem_of_fmap. split.
  - by intros (l' & [= ->] & Hl).
  - intros Hl. by exists l.
Qed.

Lemma database_search_line indexed search_value column s :
  ∃ l r,
    database_search indexed search_value column s = Run [l] s (Ok r)
    ∧ (l = NoConnection ∨ (∃ e, l = DbQueryError e)
       ∨ (∃ t, l = DbFound indexed t) ∨ (∃ t, l = DbNotFound indexed t)).
Proof.
  unfold database_search. rewrite (run_bind_pure _ _ s s) by reflexivity.
  destruct (connection s) as [c|].
  - destruct (select_where c column search_value) as [e|result query_time].
    + eexists _, _. split; [reflexivity|]. right. left. by eexists.
    + destruct (row_truthy result); eexists _, _; (split; [reflexivity|]).
      * right. right. left. by eexists.
      * do 3 right. by eexists.
  - eexists _, _. split; [reflexivity|]. by left.
Qed.

Lemma ratio_at_most_one (b : Z) :
  0 < b → Qle (Qdiv (inject_Z 1) (inject_Z b)) 1.
Proof.
  intros Hb. unfold Qle, Qdiv, Qmult, Qinv, inject_Z. cbn.
  destruct b as [|b|b]; [lia| |lia]. cbn. lia.
Qed.

(** Searching for the value of the first record: one sequential comparison,
    and a printed ratio of at most 1. *)
Lemma reporter_on_first_record (v : V) column s first rest :
  product_data s = first :: rest →
  has_column column (product_data s) →
  first !! column = Some v →
  ∃ o,
    perform_search_comparison v column s = Run o s (Ok tt)
    ∧ SequentialComparisons 1 ∈ o
    ∧ (∀ c, SequentialComparisons c ∈ o → c = 1)
    ∧ (∃ q, Speedup q ∈ o)
    ∧ (∀ q, Speedup q ∈ o → Qle q 1).
Proof.
  intros Hdata Hcol Hv.
  assert (matches v column first) as Hfirst by (unfold matches; by rewrite Hv).
  destruct (binary_search_has v _ _ Hcol) as ([ox cb] & Hb & Hcb & Hres).
  cbn [fst snd] in *.
  assert (∃ x, ox = Some x) as [x ->].
  { destruct ox as [x|]; [by eexists|]. destruct (Hres first); [|done].
    rewrite Hdata. apply list_elem_of_here. }
  destruct Hres as (_ & _ & Hpos).
  assert (sequential_search v column s
          = Run [SequentialSearching; SequentialFound 1] s (Ok (Some first, 1))) as Hs.
  { rewrite sequential_search_unfold, Hdata.
    by rewrite (sequential_loop_found v column [] first rest 0 s). }
  destruct (database_search_line (bool_decide (column ∈ indexed_columns)) v column s)
    as (l & [db_result db_time] & Hdb & Hl).
  eexists. split; [exact (reporter_out _ _ _ _ _ _ _ _ _ _ Hdb Hb Hs)|].
  cbn [fst snd binary_verdict].
  destruct (Z.ltb_spec 0 1) as [_|]; [|lia]. destruct (Z.ltb_spec 0 cb) as [_|]; [|lia].
  cbn [andb]. split; [|split; [|split]].
  - rewrite !elem_of_app. do 4 right. left. do 3 apply list_elem_of_further.
    apply list_elem_of_here.
  - intros c Hin.
    destruct Hl as [->|[[e ->]|[[t ->]|[t ->]]]];
      destruct db_result as [[|item items]|]; line_cases Hin;
      try discriminate; try (by injection Hin as ->);
      by apply list_elem_of_fmap in Hin as (kv & ? & _).
  - eexists. rewrite !elem_of_app. do 5 right. left. apply list_elem_of_here.
  - intros q Hin.
    destruct Hl as [->|[[e ->]|[[t ->]|[t ->]]]];
      destruct db_result as [[|item items]|]; line_cases Hin;
      try discriminate; try (injection Hin as ->; by apply ratio_at_most_one);
      by apply list_elem_of_fmap in Hin as (kv & ? & _).
Qed.

(** X15.  When the records of a non-empty snapshot all have the three test
    columns, the automated tests complete and leave the analyzer as it was.
    Each test looks for a value of the first record, so every sequential
    count reported is 1 and every speedup ratio printed is at most 1. *)
Theorem automated_tests_favour_sequential s :
  product_data s ≠ [] →
  has_column "customer_id" (product_data s) →
  has_column "product_id" (product_data s) →
  has_column "product_category" (product_data s) →
  ∃ o,
    run_performance_tests s = Run o s (Ok tt)
    ∧ (∃ q, Printed (Speedup q) ∈ o)
    ∧ (∀ c, Printed (SequentialComparisons c) ∈ o → c = 1)
    ∧ (∀ q, Printed (Speedup q) ∈ o → Qle q 1).
Proof.
  intros Hne Hc1 Hc2 Hc3.
  destruct (product_data s) as [|first rest] eqn:Hdata; [done|]. clear Hne.
  pose proof Hc1 as [[v1 Hv1] _]%Forall_cons.
  pose proof Hc2 as [[v2 Hv2] _]%Forall_cons.
  pose proof Hc3 as [[v3 Hv3] _]%Forall_cons.
  rewrite <-Hdata in Hc1, Hc2, Hc3.
  destruct (reporter_on_first_record v1 _ s first rest Hdata Hc1 Hv1)
    as (o1 & Hr1 & _ & Hs1 & _ & Hq1).
  destruct (reporter_on_first_record v2 _ s first rest Hdata Hc2 Hv2)
    as (o2 & Hr2 & _ & Hs2 & _ & Hq2).
  destruct (reporter_on_first_record v3 _ s first rest Hdata Hc3 Hv3)
    as (o3 & Hr3 & _ & Hs3 & [q3 Hin3] & Hq3).
  exists ([RunningTests; Printed (Rule 50)]
          ++ TestHeading 1 "customer_id" true :: (Printed <$> o1)
          ++ TestHeading 2 "product_id" false :: (Printed <$> o2)
          ++ TestHeading 3 "product_category" true :: (Printed <$> o3)).
  split; [|split; [|split]].
  - unfold run_performance_tests. cbv [mbind M_bind bind print get lift].
    rewrite Hdata. unfold getitem_dict. rewrite Hv1, Hv2, Hv3.
    cbn [run_tests]. cbv [mbind M_bind bind print mret M_ret ret lift].
    rewrite Hr1, Hr2, Hr3. cbn [fmap list_fmap app]. by rewrite !app_nil_r.
  - exists q3.
    repeat first [apply list_elem_of_further | (apply elem_of_app; right)].
    by apply printed_elem.
  - intros c Hin. line_cases Hin; try discriminate;
      apply printed_elem in Hin; eauto.
  - intros q Hin. line_cases Hin; try discriminate;
      apply printed_elem in Hin; eauto.
Qed.

(** X16.  On an empty snapshot the automated tests print their heading and
    the no-data line and return.  On a non-empty one whose first record
    lacks one of the three test columns they raise [KeyError] while the test
    cases are built, before any test is run. *)
Theorem automated_tests_edges s :
  (product_data s = [] →
   run_performance_tests s
   = Run [RunningTests; Printed (Rule 50); NoDataForTesting] s (Ok tt))
  ∧ (∀ first rest column,
       product_data s = first :: rest →
       column ∈ ["customer_id"; "product_id"; "product_category"]%string →
       first !! column = None →
       ∃ missing,
         run_performance_tests s
         = Run [RunningTests; Printed (Rule 50)] s (Raise (KeyError missing))
         ∧ first !! missing = None).
Proof.
  split.
  - intros Hdata. unfold run_performance_tests. cbv [mbind M_bind bind print get lift].
    by rewrite Hdata.
  - intros first rest column Hdata Hin Hmissing.
    unfold run_performance_tests. cbv [mbind M_bind bind print get lift].
    rewrite Hdata. unfold getitem_dict.
    destruct (first !! "customer_id"%string) as [v1|] eqn:Hv1;
      [|by exists "customer_id"%string].
    destruct (first !! "product_id"%string) as [v2|] eqn:Hv2;
      [|by exists "product_id"%string].
    destruct (first !! "product_category"%string) as [v3|] eqn:Hv3;
      [|by exists "product_category"%string].
    line_cases Hin; subst; congruence.
Qed.
End ShellLemmas.

Section SearchByColumn.
Context {V : Type} `{PyText V}.
Implicit Types (x : gmap string V) (s : analyzer V) (column display_name typed : string).

Lemma get_unique_values_returns_has column s values :
  res (get_unique_values column s) = Ok values →
  has_column column (product_data s).
Proof.
  intros Hres. destruct (decide (has_column column (product_data s))) as [|Hno]; [done|].
  destruct (decide (product_data s = [])) as [Hnil|Hne].
  - rewrite Hnil. constructor.
  - by rewrite get_unique_values_missing in Hres.
Qed.

Lemma search_by_column_unfold column display_name typed s values :
  get_unique_values column s = Run [] s (Ok values) →
  search_by_column column display_name typed s
  = let asked :=
      [SearchHeading display_name; AvailableValues display_name (take 10 values)]
      ++ (if bool_decide (10 < length values)%nat
          then [AndMore (length values - 10)] else [])
      ++ [AskValue display_name] in
    match typed with
    | EmptyString => Run asked s (Ok tt)
    | String _ _ =>
        let r := perform_search_comparison (py_text typed) column s in
        Run (asked ++ (Printed <$> out r)) (self_after r) (res r)
    end.
Proof.
  intros Hvalues. unfold search_by_column.
  cbv [mbind M_bind bind print mret M_ret ret lift]. rewrite Hvalues.
  destruct (bool_decide (10 < length values)%nat), typed as [|a typed];
    try reflexivity;
    by destruct (perform_search_comparison _ _ _).
Qed.

(** X17.  A value taken from the list [get_unique_values] returns, typed at
    the prompt of [search_by_column], is found by both in-memory searches,
    and the method completes, leaving the analyzer as it was. *)
Theorem listed_value_is_found column display_name typed s values :
  res (get_unique_values column s) = Ok values →
  typed ∈ values →
  typed ≠ EmptyString →
  ∃ o,
    search_by_column column display_name typed s = Run o s (Ok tt)
    ∧ (∃ comparisons, Printed (BinaryFound comparisons) ∈ o)
    ∧ (∃ comparisons, Printed (SequentialFound comparisons) ∈ o).
Proof.
  intros Hres Htyped Hne.
  pose proof (get_unique_values_returns_has _ _ _ Hres) as Hcol.
  destruct (get_unique_values_has column s Hcol) as (values' & Hrun & _ & _ & Hin).
  assert (values' = values) as -> by (rewrite Hrun in Hres; by injection Hres).
  apply Hin in Htyped as (x & Hx & Hstr).
  assert (matches (py_text typed) column x) as Hmatch.
  { apply matches_str_at; [|by rewrite py_str_text].
    unfold has_column in Hcol. rewrite Forall_forall in Hcol. by apply Hcol. }
  destruct (binary_search_has (py_text typed) _ _ Hcol) as ([ox cb] & Hb & _ & Hrb).
  cbn [fst snd] in *.
  assert (∃ y, ox = Some y) as [y ->].
  { destruct ox as [y|]; [by eexists|]. by destruct (Hrb x). }
  assert (∃ cs rs, sequential_search (py_text typed) column s
                   = Run [SequentialSearching; SequentialFound cs] s (Ok rs))
    as (cs & rs & Hs).
  { rewrite sequential_search_unfold.
    destruct (first_match (py_text typed) _ _ Hcol)
      as [Hnone|(pre & z & post & Hdata & Hpre & Hz)].
    - rewrite Forall_forall in Hnone. by destruct (Hnone x Hx) as [_ []].
    - rewrite Hdata, sequential_loop_found by done. by eexists _, _. }
  destruct (database_search_run (bool_decide (column ∈ indexed_columns))
              (py_text typed) column s) as (odb & [db_result db_time] & Hdb & _).
  pose proof (reporter_out _ _ _ _ _ _ _ _ _ _ Hdb Hb Hs) as Hreport.
  rewrite (search_by_column_unfold _ _ _ _ _ Hrun).
  destruct typed as [|a typed]; [done|]. rewrite Hreport. cbn [out self_after res].
  eexists. split; [reflexivity|]. split.
  - exists cb. apply elem_of_app. right. apply printed_elem.
    rewrite !elem_of_app. do 2 right. left.
    apply list_elem_of_further, list_elem_of_here.
  - exists cs. apply elem_of_app. right. apply printed_elem.
    rewrite !elem_of_app. do 3 right. left.
    apply list_elem_of_further, list_elem_of_here.
Qed.

(** X18.  [search_by_column] runs no search on an empty answer: it ends
    after the prompt.  On a non-empty snapshot with a record that lacks the
    column it raises [KeyError] while listing the values, right after its
    heading and before any prompt. *)
Theorem search_by_column_edges column display_name s :
  (∀ values,
     res (get_unique_values column s) = Ok values →
     search_by_column column display_name EmptyString s
     = Run ([SearchHeading display_name; AvailableValues display_name (take 10 values)]
            ++ (if bool_decide (10 < length values)%nat
                then [AndMore (length values - 10)] else [])
            ++ [AskValue display_name]) s (Ok tt))
  ∧ (∀ typed,
       product_data s ≠ [] → ¬ has_column column (product_data s) →
       search_by_column column display_name typed s
       = Run [SearchHeading display_name] s (Raise (KeyError column))).
Proof.
  split.
  - intros values Hres.
    pose proof (get_unique_values_returns_has _ _ _ Hres) as Hcol.
    destruct (get_unique_values_has column s Hcol) as (values' & Hrun & _).
    assert (values' = values) as -> by (rewrite Hrun in Hres; by injection Hres).
    by rewrite (search_by_column_unfold _ _ _ _ _ Hrun).
  - intros typed Hne Hno. unfold search_by_column.
    cbv [mbind M_bind bind print mret M_ret ret lift].
    by rewrite get_unique_values_missing.
Qed.
End SearchByColumn.

Lemma automated_tests_favour_sequential_witness :
  ∃ o,
    run_performance_tests three_customers = Run o three_customers (Ok tt)
    ∧ (∃ q, Printed (Speedup q) ∈ o)
    ∧ (∀ c, Printed (SequentialComparisons c) ∈ o → c = 1)
    ∧ (∀ q, Printed (Speedup q) ∈ o → Qle q 1).
Proof.
  apply (automated_tests_favour_sequential three_customers).
  - discriminate.
  - unfold has_column. by_evaluation.
  - unfold has_column. by_evaluation.
  - unfold has_column. by_evaluation.
Defined.

Lemma listed_value_is_found_witness :
  ∃ o,
    search_by_column "product_category" "Product Category" "Toys" three_customers
    = Run o three_customers (Ok tt)
    ∧ (∃ comparisons, Printed (BinaryFound comparisons) ∈ o)
    ∧ (∃ comparisons, Printed (SequentialFound comparisons) ∈ o).
Proof.
  apply (listed_value_is_found "product_category" "Product Category" "Toys"
           three_customers ["Books"; "Toys"]%string).
  - by_evaluation.
  - by_evaluation.
  - discriminate.
Defined.

(** ** The configuration check *)

Section Config.
Context {V : Type} `{PyStr V}.

End Config.
